(** * Outline editor: suggestion menu, selection toolbar and extension presets

    A shallow embedding of
      - [shared/editor/nodes/index.ts]: the extension presets,
      - [app/editor/components/SuggestionsMenu.tsx]: the suggestion overlay
        and, in the second part of the file, the selection toolbar,
    followed by the properties established about them.

    JavaScript values are modelled as follows.  A [number] that holds a
    screen coordinate or a score is a rational ([Q]); an array index is an
    integer ([Z]), so that [selectedIndex - 1] can be [-1]; a string is a
    [string]; an optional property is an [option]; a callback prop that is
    only tested for presence is a [bool].  Calls that leave the component
    (props callbacks, editor commands, [dispatch], toasts, DOM calls) are
    recorded, in order, in an effect trace. *)

From Stdlib Require Import String Ascii List Bool ZArith QArith Qminmax.
From Stdlib Require Import Lia Lqa Permutation.
Import ListNotations.

Set Implicit Arguments.

(* ================================================================== *)
(** * JavaScript helpers *)
(* ================================================================== *)

Module JS.

(** Truthiness of an optional string: [undefined] and [""] are falsy. *)
Definition truthy (o : option string) : bool :=
  match o with
  | Some s => negb (String.eqb s EmptyString)
  | None => false
  end.

(** [o || ""]. *)
Definition orEmpty (o : option string) : string :=
  match o with
  | Some s => s
  | None => EmptyString
  end.

(** [o === s] for an optional string property. *)
Definition strictEq (o : option string) (s : string) : bool :=
  match o with
  | Some s' => String.eqb s' s
  | None => false
  end.

(** [s.includes(sub)]. *)
Fixpoint includes (s sub : string) : bool :=
  String.prefix sub s
  || match s with
     | EmptyString => false
     | String _ s' => includes s' sub
     end.

(** [arr[i]]: [undefined] outside [0 .. length - 1]. *)
Definition index {A : Type} (arr : list A) (i : Z) : option A :=
  if (i <? 0)%Z then None else nth_error arr (Z.to_nat i).

(** [arr.length]. *)
Definition length {A : Type} (arr : list A) : Z := Z.of_nat (List.length arr).

(** The services the component takes from its JavaScript environment:
    the engine's [String.prototype.toLowerCase] and
    [Array.prototype.sort], lodash's [capitalize] and the
    [command-score] package.  None of them is part of the repository. *)
Class Runtime : Type := {
  toLowerCase : string -> string;
  capitalize : string -> string;
  commandScore : string -> string -> Q;
  arraySort : forall A : Type, (A -> A -> Q) -> list A -> list A
}.

(** What ECMAScript promises of [sort] whatever the comparator is: the
    array holds the same elements afterwards. *)
Definition SortPermutes (R : Runtime) : Prop :=
  forall (A : Type) (cmp : A -> A -> Q) (l : list A),
    Permutation (arraySort cmp l) l.

(** ** An ASCII instance, used to evaluate the model on examples *)

Definition isUpper (c : ascii) : bool :=
  let n := nat_of_ascii c in (65 <=? n)%nat && (n <=? 90)%nat.

Definition isLower (c : ascii) : bool :=
  let n := nat_of_ascii c in (97 <=? n)%nat && (n <=? 122)%nat.

Definition lowerChar (c : ascii) : ascii :=
  if isUpper c then ascii_of_nat (nat_of_ascii c + 32) else c.

Definition upperChar (c : ascii) : ascii :=
  if isLower c then ascii_of_nat (nat_of_ascii c - 32) else c.

Fixpoint asciiLower (s : string) : string :=
  match s with
  | EmptyString => EmptyString
  | String c s' => String (lowerChar c) (asciiLower s')
  end.

(** lodash [capitalize]: first character to upper case, the rest to
    lower case. *)
Definition asciiCapitalize (s : string) : string :=
  match s with
  | EmptyString => EmptyString
  | String c s' => String (upperChar c) (asciiLower s')
  end.

(** A stand-in scorer: 1 when the title contains the query, else 0. *)
Definition containsScore (title query : string) : Q :=
  if includes (asciiLower title) (asciiLower query) then 1%Q else 0%Q.

(** [cmp x y < 0]: the comparator asks for [x] before [y]. *)
Definition negative (q : Q) : bool := negb (Qle_bool 0 q).

(** Insertion of [x] at the right end of a sorted prefix, held in
    reverse: [x] moves left past every element it must precede. *)
Fixpoint sinkLeft {A : Type} (cmp : A -> A -> Q) (x : A) (revPrefix : list A)
  : list A :=
  match revPrefix with
  | [] => [x]
  | y :: r =>
      if negative (cmp x y) then y :: sinkLeft cmp x r else x :: revPrefix
  end.

(** A stable insertion sort, one admissible [Array.prototype.sort]. *)
Definition insertionSort {A : Type} (cmp : A -> A -> Q) (l : list A) : list A :=
  rev (fold_left (fun acc x => sinkLeft cmp x acc) l []).

Definition asciiRuntime : Runtime := {|
  toLowerCase := asciiLower;
  capitalize := asciiCapitalize;
  commandScore := containsScore;
  arraySort := @insertionSort
|}.

End JS.

(* ================================================================== *)
(** * shared/editor/nodes/index.ts *)
(* ================================================================== *)

Module Extensions.

(** The node, mark and plugin classes imported by the file. *)
Inductive Extension : Type :=
| Bold | Code | Comment | Highlight | Italic | Link | TemplatePlaceholder
| Strikethrough | Underline
| BlockMenuTrigger | ClipboardTextSerializer | DateTime | Folding | History
| Keys | MaxLength | PasteHandler | Placeholder | PreventTab | SmartText
| TrailingNode
| Attachment | Blockquote | BulletList | CheckboxItem | CheckboxList
| CodeBlock | CodeFence | Doc | Embed | Emoji | HardBreak | Heading
| HorizontalRule | Image | ListItem | Math | MathBlock | Mention | Notice
| OrderedList | Paragraph | SimpleImage | Table | TableCell | TableHeadCell
| TableRow | Text.

Definition eq_dec (a b : Extension) : {a = b} + {a <> b}.
Proof. decide equality. Defined.

(** [a !== b] on class references. *)
Definition differs (a b : Extension) : bool :=
  if eq_dec a b then false else true.

Definition Nodes : Type := list Extension.

Definition basicExtensions : Nodes :=
  [ Doc; Paragraph; Emoji; Text; SimpleImage; Bold; Code; Italic; Underline;
    Link; Strikethrough; History; SmartText; TrailingNode; PasteHandler;
    Placeholder; MaxLength; DateTime; Keys; ClipboardTextSerializer ].

(** The descriptors listed after the spread in [richExtensions]. *)
Definition richAdditions : Nodes :=
  [ Image; HardBreak; CodeBlock; CodeFence; CheckboxList; CheckboxItem;
    Blockquote; BulletList; OrderedList; Embed; ListItem; Attachment;
    Notice; Heading; HorizontalRule; Table; TableCell; TableHeadCell;
    TableRow; Highlight; TemplatePlaceholder; Folding; BlockMenuTrigger;
    Math; MathBlock; PreventTab ].

Definition richExtensions : Nodes :=
  filter (fun n => differs n SimpleImage) basicExtensions ++ richAdditions.

Definition withComments (nodes : Nodes) : Nodes :=
  Mention :: Comment :: nodes.

End Extensions.

(* ================================================================== *)
(** * The editor interface shared by both components *)
(* ================================================================== *)

Module Editor.

(** [item.attrs]: a record of scalar attributes. *)
Definition Attrs : Type := list (string * string).

(** The steps the components put into a ProseMirror transaction. *)
Inductive Step : Type :=
| InsertText (text : string)
| RemoveMark (from to : Z) (markType : string)
| AddMark (from to : Z) (markType : string) (attrs : Attrs)
| SetSelection (anchor head : Z).

Definition Transaction : Type := list Step.

(** Entries of the dictionary shown in toasts. *)
Inductive Message : Type :=
| embedInvalidLink.

(** What a file picker is asked to accept. *)
Inductive Accept : Type :=
| imageContentTypes   (* AttachmentValidation.imageContentTypes.join(", ") *)
| anyFile.            (* "*" *)

(** Calls that leave the component, and the state setters of React. *)
Inductive Effect (Item : Type) : Type :=
| PreventDefault
| StopPropagation
| ClearSearch                                   (* props.onClearSearch() *)
| Close (insertNewLine : bool)                  (* props.onClose(..) *)
| LinkToolbarOpen                               (* props.onLinkToolbarOpen() *)
| Focus                                         (* view.focus() *)
| RunCommand (name : string) (attrs : option Attrs) (* commands[name](attrs) *)
| Dispatch (tr : Transaction)                   (* view.dispatch(tr) *)
| ShowToast (message : Message)                 (* onShowToast(..) *)
| FilePick (accept : Accept)                    (* inputRef.current.click() *)
| CreateAndInsertLink (title href : string)     (* createAndInsertLink(..) *)
| SetSelectedIndex (i : Z)
| SetInsertItem (item : option Item).

Arguments PreventDefault {Item}.
Arguments StopPropagation {Item}.
Arguments ClearSearch {Item}.
Arguments Close {Item} insertNewLine.
Arguments LinkToolbarOpen {Item}.
Arguments Focus {Item}.
Arguments RunCommand {Item} name attrs.
Arguments Dispatch {Item} tr.
Arguments ShowToast {Item} message.
Arguments FilePick {Item} accept.
Arguments CreateAndInsertLink {Item} title href.
Arguments SetSelectedIndex {Item} i.

(** How a handler ends: it returns, or an exception escapes it. *)
Inductive Completion (A : Type) : Type :=
| Normal (value : A)
| Throw (error : string).

Arguments Throw {A} error.

(** A handler run: the effects it performed, in order, and how it ended. *)
Definition Run (Item A : Type) : Type := (list (Effect Item) * Completion A)%type.

Definition ret {Item A : Type} (a : A) : Run Item A := ([], Normal a).

Definition throw {Item A : Type} (error : string) : Run Item A := ([], Throw error).

Definition emit {Item : Type} (e : Effect Item) : Run Item unit := ([e], Normal tt).

Definition bind {Item A B : Type} (c : Run Item A) (k : A -> Run Item B)
  : Run Item B :=
  match c with
  | (es, Normal a) => let (es', r) := k a in (es ++ es', r)
  | (es, Throw error) => (es, Throw error)
  end.

Definition trace {Item A : Type} (c : Run Item A) : list (Effect Item) := fst c.

(** Does the trace change the document? *)
Definition mutates {Item : Type} (e : Effect Item) : bool :=
  match e with
  | RunCommand _ _ | Dispatch _ | CreateAndInsertLink _ _ => true
  | _ => false
  end.

Definition isToast {Item : Type} (e : Effect Item) : bool :=
  match e with
  | ShowToast _ => true
  | _ => false
  end.

End Editor.

Declare Scope run_scope.
Delimit Scope run_scope with run.
Notation "c ;; k" := (Editor.bind c (fun _ => k))
  (at level 61, right associativity) : run_scope.

(* ================================================================== *)
(** * app/editor/components/SuggestionsMenu.tsx *)
(* ================================================================== *)

Module Rect.
(** The object returned by [view.coordsAtPos] and by [caretPosition]. *)
Record t : Type := { top : Q; bottom : Q; left : Q; right : Q }.
End Rect.

Module DOMRect.
(** [getBoundingClientRect()] of the offset parent. *)
Record t : Type := {
  width : Q; height : Q; top : Q; left : Q; bottom : Q; right : Q
}.
End DOMRect.

Module ParentBox.
(** The local [offsetParent] of [calculatePosition]: a [DOMRect], or the
    literal [{ width: 0, height: 0, top: 0, left: 0 }] cast to one, which
    has no [bottom]. *)
Record t : Type := {
  width : Q; height : Q; top : Q; left : Q; bottom : option Q
}.
End ParentBox.

(** A [number] that may be [NaN]. *)
Inductive number : Type :=
| Finite (q : Q)
| NaN.

Module Position.
(** [Position]: [None] is [undefined].  Only [bottom] can be [NaN]. *)
Record t : Type := {
  top : option Q;
  bottom : option number;
  left : option Q;
  right : option Q;
  isAbove : bool
}.
End Position.

Module SuggestionsMenu.
Import Editor.

Definition defaultPosition : Position.t := {|
  Position.top := Some 0%Q;
  Position.bottom := None;
  Position.left := Some (-10000)%Q;
  Position.right := None;
  Position.isAbove := false
|}.

(** [MenuItem | EmbedDescriptor], with the properties the component
    reads. *)
Record Item : Type := {
  name : option string;
  title : option string;
  keywords : option string;
  defaultHidden : bool;
  attrs : option Attrs;
  appendSpace : bool;                 (* "appendSpace" in item *)
  matcher : option (string -> bool);  (* "matcher" in item; truthiness of its result *)
  visible : option bool
}.

Record Props : Type := {
  rtl : bool;
  isActive : bool;
  search : string;
  uploadFile : bool;                  (* is the callback supplied? *)
  onLinkToolbarOpen : bool;           (* is the callback supplied? *)
  embeds : option (list Item);
  filterable : option bool;
  items : list Item
}.

(** The part of the editor view the menu reads.  [coordsAtPos pos side]
    is [None] when ProseMirror throws. *)
Record View : Type := {
  selectionFrom : Z;
  selectionTo : Z;
  coordsAtPos : Z -> Z -> option Rect.t
}.

(** [menuRef.current], when mounted. *)
Record MenuElement : Type := {
  offsetWidth : Q;
  offsetHeight : Q;
  offsetParent : option DOMRect.t
}.

(** [a > b] on numbers. *)
Definition gt (a b : Q) : bool := negb (Qle_bool a b).

Definition zeroRect : Rect.t :=
  {| Rect.top := 0; Rect.bottom := 0; Rect.left := 0; Rect.right := 0 |}.

(** [caretPosition]: both lookups sit in one [try]; the [catch] logs a
    warning and returns the zero rectangle. *)
Definition caretPosition (view : View) : Rect.t :=
  match coordsAtPos view (selectionFrom view) 1%Z with
  | None => zeroRect
  | Some fromPos =>
      match coordsAtPos view (selectionTo view) (-1)%Z with
      | None => zeroRect
      | Some toPos =>
          {| Rect.top := Qmin (Rect.top fromPos) (Rect.top toPos);
             Rect.bottom := Qmax (Rect.bottom fromPos) (Rect.bottom toPos);
             Rect.left := Qmin (Rect.left fromPos) (Rect.left toPos);
             Rect.right := Qmax (Rect.right fromPos) (Rect.right toPos) |}
      end
  end.

Definition margin : Q := 12.

Definition fallbackParent : ParentBox.t := {|
  ParentBox.width := 0; ParentBox.height := 0;
  ParentBox.top := 0; ParentBox.left := 0;
  ParentBox.bottom := None
|}.

Definition parentBox (ref : option MenuElement) : ParentBox.t :=
  match ref with
  | Some el =>
      match offsetParent el with
      | Some r =>
          {| ParentBox.width := DOMRect.width r;
             ParentBox.height := DOMRect.height r;
             ParentBox.top := DOMRect.top r;
             ParentBox.left := DOMRect.left r;
             ParentBox.bottom := Some (DOMRect.bottom r) |}
      | None => fallbackParent
      end
  | None => fallbackParent
  end.

(** [a - b] where [a] may be [undefined]. *)
Definition minus (a : option Q) (b : Q) : number :=
  match a with
  | Some x => Finite (x - b)
  | None => NaN
  end.

(** [ref ? ref.offsetWidth : 0] and [ref ? ref.offsetHeight : 0]. *)
Definition measuredWidth (ref : option MenuElement) : Q :=
  match ref with Some el => offsetWidth el | None => 0 end.

Definition measuredHeight (ref : option MenuElement) : Q :=
  match ref with Some el => offsetHeight el | None => 0 end.

Definition calculatePosition (view : View) (menuRef : option MenuElement)
    (innerWidth : Q) (props : Props) : Position.t :=
  if negb (isActive props) then defaultPosition
  else
    let ref := menuRef in
    let offsetWidth := measuredWidth ref in
    let offsetHeight := measuredHeight ref in
    let caret := caretPosition view in
    let top := Rect.top caret in
    let bottom := Rect.bottom caret in
    let right := Rect.right caret in
    let left := Rect.left caret in
    let offsetParent := parentBox ref in
    let leftPos :=
      Qmin (left - ParentBox.left offsetParent)
           (innerWidth - ParentBox.left offsetParent - offsetWidth - margin) in
    let leftPos := if rtl props then right - offsetWidth else leftPos in
    if gt (top - offsetHeight) margin then
      {| Position.left := Some leftPos;
         Position.top := None;
         Position.bottom := Some (minus (ParentBox.bottom offsetParent) top);
         Position.right := None;
         Position.isAbove := false |}
    else
      {| Position.left := Some leftPos;
         Position.top := Some (bottom - ParentBox.top offsetParent);
         Position.bottom := None;
         Position.right := None;
         Position.isAbove := true |}.

(** ** The candidate list *)

(** [commands]: only whether a name is bound matters to the menu. *)
Definition Commands : Type := string -> bool.

Definition separator : Item := {|
  name := Some "separator"%string;
  title := None; keywords := None; defaultHidden := false; attrs := None;
  appendSpace := false; matcher := None; visible := None
|}.

Definition isSeparator (item : Item) : bool :=
  JS.strictEq (name item) "separator".

(** [new EmbedDescriptor({ ...embed, name: "embed" })]. *)
Definition asEmbed (embed : Item) : Item := {|
  name := Some "embed"%string;
  title := title embed; keywords := keywords embed;
  defaultHidden := defaultHidden embed; attrs := attrs embed;
  appendSpace := appendSpace embed; matcher := matcher embed;
  visible := visible embed
|}.

(** [embed.visible !== false]. *)
Definition notHidden (embed : Item) : bool :=
  match visible embed with
  | Some false => false
  | _ => true
  end.

(** The loop that fills [embedItems]. *)
Fixpoint embedItems (embeds : list Item) : list Item :=
  match embeds with
  | [] => []
  | embed :: rest =>
      if JS.truthy (title embed) && notHidden embed
      then asEmbed embed :: embedItems rest
      else embedItems rest
  end.

(** Modelled from the spec: [filterExcessSeparators]
    (shared/editor/lib/filterExcessSeparators) is imported but not among
    the sources.  The spec has it "collapse consecutive/leading/trailing
    separators into at most one separator between real runs": a run of
    separators becomes one, then a separator at either end goes. *)
Fixpoint collapseAdjacent (l : list Item) : list Item :=
  match l with
  | [] => []
  | x :: rest =>
      match rest with
      | y :: _ =>
          if isSeparator x && isSeparator y then collapseAdjacent rest
          else x :: collapseAdjacent rest
      | [] => [x]
      end
  end.

Definition trimLeading (l : list Item) : list Item :=
  match l with
  | x :: rest => if isSeparator x then rest else l
  | [] => []
  end.

Fixpoint trimTrailing (l : list Item) : list Item :=
  match l with
  | [] => []
  | x :: rest =>
      match rest with
      | [] => if isSeparator x then [] else [x]
      | _ :: _ => x :: trimTrailing rest
      end
  end.

Definition filterExcessSeparators (l : list Item) : list Item :=
  trimTrailing (trimLeading (collapseAdjacent l)).

Section WithRuntime.
Context {R : JS.Runtime}.

(** [`create${capitalize(item.name)}`]; lodash turns [undefined] into
    the empty string. *)
Definition createName (n : option string) : string :=
  ("create" ++ JS.capitalize (JS.orEmpty n))%string.

(** [items] just before the filter: the supplied items, then a
    separator and the embeds when there are any. *)
Definition allItems (props : Props) : list Item :=
  let embeds := match embeds props with Some e => e | None => [] end in
  let embedItems := embedItems embeds in
  if (0 <? JS.length embedItems)%Z
  then items props ++ separator :: embedItems
  else items props.

(** The callback of [items.filter]. *)
Definition keep (props : Props) (commands : Commands) (item : Item) : bool :=
  let search := search props in
  let filterable := match filterable props with Some b => b | None => true end in
  let searchInput := JS.toLowerCase search in
  if JS.strictEq (name item) "separator" then true
  else if JS.truthy (name item)
          && negb (commands (JS.orEmpty (name item)))
          && negb (commands (createName (name item)))
  then false
  else if negb (uploadFile props) && JS.strictEq (name item) "image" then false
  else if negb (JS.truthy (Some search)) then negb (defaultHidden item)
  else if negb filterable then true
  else JS.includes (JS.toLowerCase (JS.orEmpty (title item))) searchInput
       || JS.includes (JS.toLowerCase (JS.orEmpty (keywords item))) searchInput.

(** The inner [filtered]: the outcome of the filtering step. *)
Definition filterStep (props : Props) (commands : Commands) : list Item :=
  filter (keep props commands) (allItems props).

(** The function handed to [sort].  It names one parameter only, so
    the second element of each comparison is never looked at. *)
Definition compareFn (props : Props) (item _other : Item) : Q :=
  let searchInput := JS.toLowerCase (search props) in
  if JS.truthy (Some searchInput) && JS.truthy (title item)
  then JS.commandScore (JS.orEmpty (title item)) searchInput
  else 0.

(** The memoised [filtered]. *)
Definition filtered (props : Props) (commands : Commands) : list Item :=
  filterExcessSeparators
    (JS.arraySort (compareFn props) (filterStep props commands)).

(** ** Inserting a node *)

Definition insertNode (commands : Commands) (item : Item) : Run Item unit :=
  (emit ClearSearch ;;
   (let command :=
      if JS.truthy (name item) then commands (JS.orEmpty (name item)) else false in
    if command then emit (RunCommand (JS.orEmpty (name item)) (attrs item))
    else if commands (createName (name item))
         then emit (RunCommand (createName (name item)) (attrs item))
         else throw "TypeError: commands[...] is not a function") ;;
   (if appendSpace item then emit (Dispatch [InsertText " "]) else ret tt) ;;
   emit (Close false))%run.

(** [inputRef.current] exists when the hidden file input is rendered,
    that is when [uploadFile] is supplied. *)
Definition triggerFilePick (props : Props) (accept : Accept) : Run Item unit :=
  if uploadFile props then emit (FilePick accept) else ret tt.

Definition triggerLinkInput (item : Item) : Run Item unit :=
  emit (SetInsertItem (Some item)).

Definition handleClickItem (props : Props) (commands : Commands) (item : Item)
  : Run Item unit :=
  if JS.strictEq (name item) "image" then triggerFilePick props imageContentTypes
  else if JS.strictEq (name item) "attachment" then triggerFilePick props anyFile
  else if JS.strictEq (name item) "embed" then triggerLinkInput item
  else if JS.strictEq (name item) "link" then
    (emit ClearSearch ;;
     emit (Close false) ;;
     (if onLinkToolbarOpen props then emit LinkToolbarOpen else ret tt))%run
  else insertNode commands item.

Definition close : Run Item unit :=
  (emit (Close false) ;; emit Focus)%run.

(** ** The link input *)

(** [{ name: "embed", attrs: { href } }]. *)
Definition embedNode (href : string) : Item := {|
  name := Some "embed"%string;
  title := None; keywords := None; defaultHidden := false;
  attrs := Some [("href"%string, href)];
  appendSpace := false; matcher := None; visible := None
|}.

(** ["matcher" in insertItem && insertItem.matcher(href)]. *)
Definition matches (insertItem : Item) (href : string) : bool :=
  match matcher insertItem with
  | Some m => m href
  | None => false
  end.

Definition handleLinkInputKeydown (props : Props) (commands : Commands)
    (insertItem : option Item) (key value : string) : Run Item unit :=
  if negb (isActive props) then ret tt
  else
    match insertItem with
    | None => ret tt
    | Some insertItem =>
        if String.eqb key "Enter" then
          (emit PreventDefault ;;
           emit StopPropagation ;;
           (let href := value in
            if negb (matches insertItem href)
            then emit (ShowToast embedInvalidLink)   (* and return *)
            else insertNode commands (embedNode href)))%run
        else if String.eqb key "Escape" then
          (emit (Close false) ;; emit Focus)%run
        else ret tt
    end.

Definition handleLinkInputPaste (props : Props) (commands : Commands)
    (insertItem : option Item) (clipboardText : string) : Run Item unit :=
  if negb (isActive props) then ret tt
  else
    match insertItem with
    | None => ret tt
    | Some insertItem =>
        let href := clipboardText in
        if matches insertItem href then
          (emit PreventDefault ;;
           emit StopPropagation ;;
           insertNode commands (embedNode href))%run
        else ret tt
    end.

(** ** Window handlers *)

Record KeyboardEvent : Type := {
  key : string;
  shiftKey : bool;
  ctrlKey : bool
}.

(** ArrowUp, Shift+Tab or Ctrl+P. *)
Definition isPrevious (event : KeyboardEvent) : bool :=
  String.eqb (key event) "ArrowUp"
  || (String.eqb (key event) "Tab" && shiftKey event)
  || (ctrlKey event && String.eqb (key event) "p").

(** ArrowDown, Tab or Ctrl+N. *)
Definition isNext (event : KeyboardEvent) : bool :=
  String.eqb (key event) "ArrowDown"
  || (String.eqb (key event) "Tab" && negb (shiftKey event))
  || (ctrlKey event && String.eqb (key event) "n").

(** [entry?.name === "separator"]. *)
Definition namedSeparator (entry : option Item) : bool :=
  match entry with
  | Some item => JS.strictEq (name item) "separator"
  | None => false
  end.

(** [handleMouseDown]: [inMenu] is [menuRef.current.contains(target)];
    [mounted] is whether [menuRef.current] is set. *)
Definition handleMouseDown (mounted inMenu : bool) : Run Item unit :=
  if negb mounted || inMenu then ret tt else emit (Close false).

Definition handleKeyDown (props : Props) (commands : Commands)
    (filtered : list Item) (selectedIndex : Z) (event : KeyboardEvent)
  : Run Item unit :=
  if negb (isActive props) then ret tt
  else
    ((if String.eqb (key event) "Enter" then
        (emit PreventDefault ;;
         emit StopPropagation ;;
         match JS.index filtered selectedIndex with
         | Some item => handleClickItem props commands item
         | None => emit (Close true)
         end)
      else ret tt) ;;
     (if isPrevious event then
        (emit PreventDefault ;;
         emit StopPropagation ;;
         (if negb (JS.length filtered =? 0)%Z then
            let prevIndex := (selectedIndex - 1)%Z in
            let prev := JS.index filtered prevIndex in
            emit (SetSelectedIndex
                    (Z.max 0 (if namedSeparator prev
                              then prevIndex - 1 else prevIndex)))
          else close))
      else ret tt) ;;
     (if isNext event then
        (emit PreventDefault ;;
         emit StopPropagation ;;
         (if negb (JS.length filtered =? 0)%Z then
            let total := (JS.length filtered - 1)%Z in
            let nextIndex := (selectedIndex + 1)%Z in
            let next := JS.index filtered nextIndex in
            emit (SetSelectedIndex
                    (Z.min (if namedSeparator next
                            then nextIndex + 1 else nextIndex)
                           total))
          else close))
      else ret tt) ;;
     (if String.eqb (key event) "Escape" then close else ret tt))%run.

End WithRuntime.

(** ** Component state *)

Record State : Type := {
  insertItem : option Item;
  selectedIndex : Z
}.

(** What a state setter in the trace does to the state. *)
Definition setState (s : State) (e : Effect Item) : State :=
  match e with
  | SetSelectedIndex i => {| insertItem := insertItem s; selectedIndex := i |}
  | SetInsertItem item => {| insertItem := item; selectedIndex := selectedIndex s |}
  | _ => s
  end.

Definition commit (s : State) (es : list (Effect Item)) : State :=
  fold_left setState es s.

(** A key press reaching the window listener of the current render,
    which closes over this render's [filtered] and [selectedIndex]. *)
Definition afterKeyDown {R : JS.Runtime} (props : Props) (commands : Commands)
    (s : State) (event : KeyboardEvent) : State :=
  commit s (trace (handleKeyDown props commands (filtered props commands)
                                 (selectedIndex s) event)).

(** A paste into the link input. *)
Definition afterPaste {R : JS.Runtime} (props : Props) (commands : Commands)
    (s : State) (clipboardText : string) : State :=
  commit s (trace (handleLinkInputPaste props commands (insertItem s)
                                        clipboardText)).

(** The controller state as rendered: the wrapper is [active] with
    [props.isActive], and shows the link input when [insertItem] is set. *)
Inductive Mode : Type :=
| inactive
| active
| linkEditing.

Definition mode (props : Props) (s : State) : Mode :=
  if negb (isActive props) then inactive
  else match insertItem s with
       | Some _ => linkEditing
       | None => active
       end.

End SuggestionsMenu.

(* ================================================================== *)
(** * Window listeners and the effect protocol of React *)
(* ================================================================== *)

Module Listeners.

Inductive EventType : Type :=
| mousedown
| mouseup
| keydown.

Inductive Component : Type :=
| suggestionsMenu
| selectionToolbar.

(** A registered listener.  [closure] tells handler functions apart: it
    is the number of the effect run that created the function. *)
Record Listener : Type := {
  type : EventType;
  capture : bool;
  owner : Component;
  closure : nat
}.

Definition eventTypeEqb (a b : EventType) : bool :=
  match a, b with
  | mousedown, mousedown | mouseup, mouseup | keydown, keydown => true
  | _, _ => false
  end.

Definition componentEqb (a b : Component) : bool :=
  match a, b with
  | suggestionsMenu, suggestionsMenu | selectionToolbar, selectionToolbar => true
  | _, _ => false
  end.

Definition sameListener (a b : Listener) : bool :=
  eventTypeEqb (type a) (type b)
  && Bool.eqb (capture a) (capture b)
  && componentEqb (owner a) (owner b)
  && Nat.eqb (closure a) (closure b).

(** [window.addEventListener]: a listener already present is not added
    again. *)
Definition addEventListener (l : Listener) (window : list Listener)
  : list Listener :=
  if existsb (sameListener l) window then window else window ++ [l].

(** [window.removeEventListener]. *)
Definition removeEventListener (l : Listener) (window : list Listener)
  : list Listener :=
  filter (fun l' => negb (sameListener l l')) window.

(** The listeners the effect of a component registers, in order:
    l. 485-488 for the menu and l. 782 for the toolbar. *)
Definition registers (c : Component) (run : nat) : list Listener :=
  match c with
  | suggestionsMenu =>
      [ {| type := mousedown; capture := false; owner := c; closure := run |};
        {| type := keydown; capture := true; owner := c; closure := run |} ]
  | selectionToolbar =>
      [ {| type := mouseup; capture := false; owner := c; closure := run |} ]
  end.

(** The effect body: it registers whatever [isActive] is. *)
Definition effect (c : Component) (run : nat) (window : list Listener)
  : list Listener :=
  fold_left (fun w l => addEventListener l w) (registers c run) window.

(** The function the effect returns. *)
Definition cleanup (c : Component) (run : nat) (window : list Listener)
  : list Listener :=
  fold_left (fun w l => removeEventListener l w) (registers c run) window.

(** A component instance and the window it registers on. *)
Record World : Type := {
  live : option nat;        (* the effect run whose cleanup is pending *)
  runs : nat;               (* effect runs so far *)
  isActive : bool;          (* the controller is active or linkEditing *)
  window : list Listener
}.

Definition initial : World :=
  {| live := None; runs := 0; isActive := false; window := [] |}.

(** What React does with the component. *)
Inductive Event : Type :=
| Mount (isActive : bool)
| Render (isActive : bool) (depsChanged : bool)
| Unmount.

(** React runs the effect after the first render, runs the cleanup and
    then the effect again after a render that changed a dependency, and
    runs the cleanup when the component unmounts. *)
Definition step (c : Component) (w : World) (e : Event) : World :=
  match e, live w with
  | Mount a, None =>
      {| live := Some (runs w); runs := S (runs w); isActive := a;
         window := effect c (runs w) (window w) |}
  | Render a changed, Some n =>
      if changed then
        {| live := Some (runs w); runs := S (runs w); isActive := a;
           window := effect c (runs w) (cleanup c n (window w)) |}
      else
        {| live := Some n; runs := runs w; isActive := a; window := window w |}
  | Unmount, Some n =>
      {| live := None; runs := runs w; isActive := false;
         window := cleanup c n (window w) |}
  | _, _ => w
  end.

Definition run (c : Component) (events : list Event) : World :=
  fold_left (step c) events initial.

(** The listeners a component is meant to hold: those of its live effect
    run while mounted, none otherwise. *)
Definition held (c : Component) (w : World) : list Listener :=
  match live w with
  | Some n => registers c n
  | None => []
  end.

End Listeners.

(* ================================================================== *)
(** * The selection toolbar (SuggestionsMenu.tsx, l. 665-918) *)
(* ================================================================== *)

Module SelectionToolbar.
Import Editor.

(** Which class the selection is an instance of. *)
Inductive SelectionClass : Type :=
| NodeSelection (nodeTypeName : string)   (* selection.node.type.name *)
| TextSelection
| OtherSelection.                         (* AllSelection, CellSelection, .. *)

(** A ProseMirror selection: its class and its ranges, main range first. *)
Record Selection : Type := {
  class : SelectionClass;
  ranges : list (Z * Z)
}.

(** [selection.from] and [selection.to]: the bounds of the main range. *)
Definition from (s : Selection) : Z := fst (hd (0, 0)%Z (ranges s)).
Definition to (s : Selection) : Z := snd (hd (0, 0)%Z (ranges s)).

(** [selection.empty]: no range holds any content. *)
Definition empty (s : Selection) : bool :=
  forallb (fun r => (fst r =? snd r)%Z) (ranges s).

(** A node of the selected slice: [n.content.size] is what is read. *)
Record Node : Type := {
  typeName : string;
  contentSize : Z
}.

(** The editor state as [useIsActive] observes it. *)
Record EditorState : Type := {
  selection : option Selection;
  linkMarkActive : bool;     (* isMarkActive(state.schema.marks.link)(state) *)
  selectionText : string;    (* doc.cut(selection.from, selection.to).textContent *)
  sliceNodes : list Node     (* selection.content().content.content *)
}.

Definition isNodeSelection (s : Selection) : bool :=
  match class s with
  | NodeSelection _ => true
  | _ => false
  end.

Definition isTextSelection (s : Selection) : bool :=
  match class s with
  | TextSelection => true
  | _ => false
  end.

(** [selection instanceof NodeSelection && selection.node.type.name === n]. *)
Definition selectsNode (s : Selection) (n : string) : bool :=
  match class s with
  | NodeSelection t => String.eqb t n
  | _ => false
  end.

(** lodash [some(nodes, (n) => n.content.size)]. *)
Definition someNonEmpty (nodes : list Node) : bool :=
  existsb (fun n => negb (contentSize n =? 0)%Z) nodes.

Definition useIsActive (state : EditorState) : bool :=
  if linkMarkActive state then true
  else
    match selection state with
    | None => false
    | Some selection =>
        if empty selection then false
        else if selectsNode selection "hr" then true
        else if selectsNode selection "image" then true
        else if isNodeSelection selection then false
        else
          let selectionText := selectionText state in
          if isTextSelection selection && String.eqb selectionText ""
          then false
          else someNonEmpty (sliceNodes state)
    end.

(** Handlers of the toolbar leave no item behind. *)
Definition Fx : Type := Effect Empty_set.


Section WithUrls.
(** [creatingUrlPrefix] of shared/utils/urls, which is not among the
    sources. *)
Variable creatingUrlPrefix : string.

(** [handleOnCreateLink]: [onCreateLink] tells whether the prop is
    supplied; [selection] is [view.state.selection]. *)
Definition handleOnCreateLink (onCreateLink : bool) (selection : Selection)
    (title : string) : list Fx :=
  if negb onCreateLink then []
  else
    let from := from selection in
    let to := to selection in
    if (from =? to)%Z then []        (* selection cannot be collapsed *)
    else
      let href := (creatingUrlPrefix ++ title ++ "…")%string in
      [ Dispatch [ RemoveMark from to "link";
                   AddMark from to "link" [("href"%string, href)] ];
        CreateAndInsertLink title href ].
End WithUrls.

Definition handleOnSelectLink (href : string) (from to : Z) : list Fx :=
  [ Dispatch [ RemoveMark from to "link";
               AddMark from to "link" [("href"%string, href)] ] ].

End SelectionToolbar.

(* ================================================================== *)
(** * Vocabulary of the properties and sample data *)
(* ================================================================== *)

Module Vocabulary.
Import SuggestionsMenu.

(** The title or the keywords of [item] contain [search], case put
    aside. *)
Definition containsSearch {R : JS.Runtime} (search : string) (item : Item) : Prop :=
  JS.includes (JS.toLowerCase (JS.orEmpty (title item))) (JS.toLowerCase search)
    = true
  \/ JS.includes (JS.toLowerCase (JS.orEmpty (keywords item)))
       (JS.toLowerCase search) = true.

(** Filtering is on unless [filterable] is passed as [false]. *)
Definition filterableMode (props : Props) : Prop :=
  filterable props <> Some false.

(** [i] is the index of the last entry of [l] that is not a separator. *)
Definition lastReal (l : list Item) (i : Z) : Prop :=
  (exists x, JS.index l i = Some x /\ isSeparator x = false)
  /\ forall j x, (i < j)%Z -> JS.index l j = Some x -> isSeparator x = true.

(** The entry of [l] at [i] exists and is not a separator. *)
Definition realAt (l : list Item) (i : Z) : Prop :=
  exists x, JS.index l i = Some x /\ isSeparator x = false.

(** A list with no separator at either end and no two in a row. *)
Definition startsReal (l : list Item) : bool :=
  match l with
  | x :: _ => negb (isSeparator x)
  | [] => true
  end.

Fixpoint endsReal (l : list Item) : bool :=
  match l with
  | [] => true
  | x :: rest =>
      match rest with
      | [] => negb (isSeparator x)
      | _ :: _ => endsReal rest
      end
  end.

Fixpoint noAdjacent (l : list Item) : bool :=
  match l with
  | [] => true
  | x :: rest =>
      match rest with
      | [] => true
      | y :: _ => negb (isSeparator x && isSeparator y) && noAdjacent rest
      end
  end.


(** No entry of [l] is a separator. *)
Definition separatorFree (l : list Item) : Prop :=
  forall x, In x l -> isSeparator x = false.

(** The activation rule in the words of the specification. *)
Definition statedActive (state : SelectionToolbar.EditorState) : Prop :=
  SelectionToolbar.linkMarkActive state = true
  \/ exists sel,
       SelectionToolbar.selection state = Some sel
       /\ SelectionToolbar.empty sel = false
       /\ (SelectionToolbar.selectsNode sel "hr" = true
           \/ SelectionToolbar.selectsNode sel "image" = true
           \/ (SelectionToolbar.isNodeSelection sel = false
               /\ exists n, In n (SelectionToolbar.sliceNodes state)
                            /\ SelectionToolbar.contentSize n <> 0%Z)).

(** The activation rule of the code: a text selection needs text. *)
Definition codedActive (state : SelectionToolbar.EditorState) : Prop :=
  SelectionToolbar.linkMarkActive state = true
  \/ exists sel,
       SelectionToolbar.selection state = Some sel
       /\ SelectionToolbar.empty sel = false
       /\ (SelectionToolbar.selectsNode sel "hr" = true
           \/ SelectionToolbar.selectsNode sel "image" = true
           \/ (SelectionToolbar.isNodeSelection sel = false
               /\ ~ (SelectionToolbar.isTextSelection sel = true
                     /\ SelectionToolbar.selectionText state = EmptyString)
               /\ exists n, In n (SelectionToolbar.sliceNodes state)
                            /\ SelectionToolbar.contentSize n <> 0%Z)).

End Vocabulary.

Module Samples.
Import SuggestionsMenu.

Definition item (n t : string) : Item := {|
  name := Some n; title := Some t; keywords := None; defaultHidden := false;
  attrs := None; appendSpace := false; matcher := None; visible := None
|}.

Definition keywordItem (n k : string) : Item := {|
  name := Some n; title := None; keywords := Some k; defaultHidden := false;
  attrs := None; appendSpace := false; matcher := None; visible := None
|}.

Definition heading1 : Item := item "heading1" "Big heading".
Definition heading2 : Item := item "heading2" "Medium heading".
Definition image : Item := item "image" "Image".

Definition menuProps (search : string) (items : list Item) : Props := {|
  rtl := false; isActive := true; search := search; uploadFile := false;
  onLinkToolbarOpen := false; embeds := None; filterable := None;
  items := items
|}.

(** The scenario: "head" typed, three items, no upload capability. *)
Definition headProps : Props := menuProps "head" [heading1; heading2; image].

(** Two items found through their keywords, a separator between them. *)
Definition separatedProps : Props :=
  menuProps "head"
    [ keywordItem "heading1" "head title"; separator;
      keywordItem "heading2" "subhead" ].


(** Every command is bound. *)
Definition allCommands : Commands := fun _ => true.

(** A view whose coordinate lookup throws. *)
Definition staleView : View := {|
  selectionFrom := 10; selectionTo := 15;
  coordsAtPos := fun _ _ => None
|}.

(** A mounted panel, 280 by 100, in a parent at the origin. *)
Definition panel : MenuElement := {|
  offsetWidth := 280; offsetHeight := 100;
  offsetParent := Some {| DOMRect.width := 1000; DOMRect.height := 800;
                          DOMRect.top := 0; DOMRect.left := 0;
                          DOMRect.bottom := 800; DOMRect.right := 1000 |}
|}.

(** A view with the caret at (300, 400), 20 high. *)
Definition caretView : View := {|
  selectionFrom := 10; selectionTo := 10;
  coordsAtPos := fun _ _ =>
    Some {| Rect.top := 400; Rect.bottom := 420;
            Rect.left := 300; Rect.right := 300 |}
|}.

(** An embed descriptor that accepts https links. *)
Definition videoEmbed : Item := {|
  name := Some "embed"%string; title := Some "Video"%string; keywords := None;
  defaultHidden := false; attrs := None; appendSpace := false;
  matcher := Some (String.prefix "https://");
  visible := None
|}.

Definition linkInputState : State :=
  {| insertItem := Some videoEmbed; selectedIndex := 0 |}.

Definition arrowDown : KeyboardEvent :=
  {| key := "ArrowDown"; shiftKey := false; ctrlKey := false |}.

(** A text selection over a hard break alone, in
    [doc(paragraph(hard_break))]: no text, one paragraph of size 1 in
    the slice. *)
Definition hardBreakSelected : SelectionToolbar.EditorState := {|
  SelectionToolbar.selection :=
    Some {| SelectionToolbar.class := SelectionToolbar.TextSelection;
            SelectionToolbar.ranges := [(1, 2)%Z] |};
  SelectionToolbar.linkMarkActive := false;
  SelectionToolbar.selectionText := EmptyString;
  SelectionToolbar.sliceNodes :=
    [ {| SelectionToolbar.typeName := "paragraph";
         SelectionToolbar.contentSize := 1 |} ]
|}.

Definition caretSelection : SelectionToolbar.Selection :=
  {| SelectionToolbar.class := SelectionToolbar.TextSelection;
     SelectionToolbar.ranges := [(7, 7)%Z] |}.

End Samples.

(* ================================================================== *)
(** * The body of the selection toolbar (SuggestionsMenu.tsx, l. 739-918) *)
(* ================================================================== *)

Module ToolbarRender.
Import Editor.

Definition Item : Type := SuggestionsMenu.Item.

(** What [getMarkRange] returns for the link mark, when there is one. *)
Record MarkRange : Type := {
  rangeFrom : Z;
  rangeTo : Z;
  markHref : string
}.

(** The menu builders of [../menus], which are not among the sources, for
    the current state and dictionary. *)
Record Menus : Type := {
  getTableMenuItems : list Item;
  getTableColMenuItems : Z -> bool -> list Item;  (* colIndex, rtl *)
  getTableRowMenuItems : Z -> list Item;          (* rowIndex *)
  getImageMenuItems : list Item;
  getDividerMenuItems : list Item;
  getFormattingMenuItems : bool -> list Item      (* isTemplate *)
}.

(** What the component reads off the editor state before it picks a
    menu. *)
Record Observed : Type := {
  isCodeSelection : bool;     (* isNodeActive(schema.nodes.code_block)(state) *)
  isDividerSelection : bool;  (* isNodeActive(schema.nodes.hr)(state) *)
  colIndex : option Z;        (* getColumnIndex(selection) *)
  rowIndex : option Z;        (* getRowIndex(selection) *)
  link : bool;                (* isMarkActive(schema.marks.link)(state) *)
  range : option MarkRange;   (* getMarkRange(selection.$from, marks.link) *)
  isImageSelection : bool     (* selection.node?.type?.name === "image" *)
}.

(** The [if .. else if] chain that fills [items]. *)
Definition chosenItems (menus : Menus) (o : Observed) (rtl isTemplate : bool)
  : list Item :=
  match colIndex o, rowIndex o with
  | Some _, Some _ => getTableMenuItems menus
  | Some c, None => getTableColMenuItems menus c rtl
  | None, Some r => getTableRowMenuItems menus r
  | None, None =>
      if isImageSelection o then getImageMenuItems menus
      else if isDividerSelection o then getDividerMenuItems menus
      else getFormattingMenuItems menus isTemplate
  end.

(** The callback of [items.filter]: only the item's own name is looked
    up. *)
Definition offered (commands : SuggestionsMenu.Commands) (item : Item) : bool :=
  if JS.strictEq (SuggestionsMenu.name item) "separator" then true
  else if JS.truthy (SuggestionsMenu.name item)
          && negb (commands (JS.orEmpty (SuggestionsMenu.name item)))
  then false
  else true.

Definition toolbarItems (menus : Menus) (commands : SuggestionsMenu.Commands)
    (o : Observed) (rtl isTemplate : bool) : list Item :=
  SuggestionsMenu.filterExcessSeparators
    (filter (offered commands) (chosenItems menus o rtl isTemplate)).

(** What the component returns. *)
Inductive Rendered : Type :=
| Nothing                                    (* return null *)
| LinkEditor (r : MarkRange) (width : Z)     (* <LinkEditor from to mark /> *)
| ToolbarMenu (items : list Item).           (* <ToolbarMenu items /> *)

Definition render (menus : Menus) (commands : SuggestionsMenu.Commands)
    (o : Observed) (rtl isTemplate : bool) : Rendered :=
  if isCodeSelection o then Nothing
  else
    let items := toolbarItems menus commands o rtl isTemplate in
    if (JS.length items =? 0)%Z then Nothing
    else
      match (if link o then range o else None) with   (* link && range *)
      | Some r => LinkEditor r 336
      | None => ToolbarMenu items
      end.

(** ** Open and close callbacks (l. 745-756) *)

Inductive Notification : Type :=
| onOpen
| onClose.

(** The effect body.  [previous] is [usePrevious(isActive)]: the value of
    [isActive] at the render before, [undefined] at the first one. *)
Definition notify (previous : option bool) (isActive : bool)
  : list Notification :=
  let previousIsActive := match previous with Some b => b | None => false end in
  (if previousIsActive && negb isActive then [onClose] else [])
  ++ (if negb previousIsActive && isActive then [onOpen] else []).

(** The callbacks fired over a run of renders, given the value of
    [isActive] at each.  The effect is skipped by React only when neither
    [isActive] nor [previous] changed, and then its body would do
    nothing. *)
Fixpoint notifications (previous : option bool) (renders : list bool)
  : list Notification :=
  match renders with
  | [] => []
  | isActive :: rest =>
      notify previous isActive ++ notifications (Some isActive) rest
  end.

End ToolbarRender.

(* ================================================================== *)
(** * The right sidebar (src/unnamed/part_001) *)
(* ================================================================== *)

Module Sidebar.

(** [theme.sidebarMinWidth + 16]. *)
Definition minWidth (sidebarMinWidth : Q) : Q := sidebarMinWidth + 16.

(** The width [handleDrag] hands to [ui.setRightSidebarWidth]. *)
Definition handleDrag (innerWidth pageX maxWidth minWidth : Q) : Q :=
  Qmax (Qmin (innerWidth - pageX) maxWidth) minWidth.

Inductive EventType : Type :=
| mousemove
| mouseup.

(** A listener on [document]: the event and the identity of the handler
    function, which [useCallback] keeps until a dependency changes. *)
Record Listener : Type := {
  type : EventType;
  handler : nat
}.

Definition eventTypeEqb (a b : EventType) : bool :=
  match a, b with
  | mousemove, mousemove | mouseup, mouseup => true
  | _, _ => false
  end.

Definition sameListener (a b : Listener) : bool :=
  eventTypeEqb (type a) (type b) && Nat.eqb (handler a) (handler b).

Definition addEventListener (l : Listener) (document : list Listener)
  : list Listener :=
  if existsb (sameListener l) document then document else document ++ [l].

Definition removeEventListener (l : Listener) (document : list Listener)
  : list Listener :=
  filter (fun l' => negb (sameListener l l')) document.

(** The dependencies of the effect: [isResizing], [handleDrag],
    [handleStopDrag]. *)
Record Deps : Type := {
  isResizing : bool;
  dragHandler : nat;
  stopHandler : nat
}.

Definition depsEqb (a b : Deps) : bool :=
  Bool.eqb (isResizing a) (isResizing b)
  && Nat.eqb (dragHandler a) (dragHandler b)
  && Nat.eqb (stopHandler a) (stopHandler b).

(** The effect body: it registers only while resizing. *)
Definition effect (d : Deps) (document : list Listener) : list Listener :=
  if isResizing d then
    addEventListener {| type := mouseup; handler := stopHandler d |}
      (addEventListener {| type := mousemove; handler := dragHandler d |}
         document)
  else document.

(** The function the effect returns: it removes in either case. *)
Definition cleanup (d : Deps) (document : list Listener) : list Listener :=
  removeEventListener {| type := mouseup; handler := stopHandler d |}
    (removeEventListener {| type := mousemove; handler := dragHandler d |}
       document).

Record World : Type := {
  live : option Deps;          (* the dependencies of the last effect run *)
  document : list Listener
}.

Definition initial : World := {| live := None; document := [] |}.

Inductive Event : Type :=
| Mount (d : Deps)
| Render (d : Deps)
| Unmount.

(** React: the effect runs after the first render and after a render that
    changed a dependency, the previous cleanup first; the cleanup runs at
    unmount. *)
Definition step (w : World) (e : Event) : World :=
  match e, live w with
  | Mount d, None => {| live := Some d; document := effect d (document w) |}
  | Render d, Some d0 =>
      if depsEqb d d0 then w
      else {| live := Some d; document := effect d (cleanup d0 (document w)) |}
  | Unmount, Some d0 => {| live := None; document := cleanup d0 (document w) |}
  | _, _ => w
  end.

Definition run (events : list Event) : World := fold_left step events initial.

(** The listeners the sidebar is meant to hold. *)
Definition held (w : World) : list Listener :=
  match live w with
  | Some d =>
      if isResizing d then
        [ {| type := mousemove; handler := dragHandler d |};
          {| type := mouseup; handler := stopHandler d |} ]
      else []
  | None => []
  end.

End Sidebar.

(* ================================================================== *)
(** * Further vocabulary and sample data *)
(* ================================================================== *)

Module Notions.
Import Editor SuggestionsMenu Vocabulary.

(** What ECMAScript promises of [sort] when the comparator calls every
    pair equal: the order is kept. *)
Definition SortKeepsTies (R : JS.Runtime) : Prop :=
  forall (A : Type) (cmp : A -> A -> Q) (l : list A),
    (forall a b, cmp a b == 0) -> JS.arraySort cmp l = l.

(** [{ ...props, search }]. *)
Definition withSearch (props : Props) (s : string) : Props := {|
  rtl := rtl props; isActive := isActive props; search := s;
  uploadFile := uploadFile props; onLinkToolbarOpen := onLinkToolbarOpen props;
  embeds := embeds props; filterable := filterable props; items := items props
|}.

(** The item has no name, or a command is bound under its name or under
    its "create" name. *)
Definition available {R : JS.Runtime} (commands : Commands) (item : Item)
  : bool :=
  negb (JS.truthy (name item)
        && negb (commands (JS.orEmpty (name item)))
        && negb (commands (createName (name item)))).

(** The item is not the image item of a menu without upload. *)
Definition uploadable (props : Props) (item : Item) : bool :=
  negb (negb (uploadFile props) && JS.strictEq (name item) "image").

(** The embeds handed to the menu. *)
Definition suppliedEmbeds (props : Props) : list Item :=
  match embeds props with
  | Some e => e
  | None => []
  end.

(** The handler returned; no exception escaped. *)
Definition completes {A : Type} (r : Run Item A) : bool :=
  match snd r with
  | Normal _ => true
  | Throw _ => false
  end.

(** The index after a key press on the list [l] with the index at [i]. *)
Definition indexAfter {R : JS.Runtime} (props : Props) (commands : Commands)
    (l : list Item) (i : Z) (event : KeyboardEvent) : Z :=
  selectedIndex
    (commit {| insertItem := None; selectedIndex := i |}
       (trace (handleKeyDown props commands l i event))).

(** No separator at either end, no two in a row. *)
Definition tidy (l : list Item) : Prop :=
  startsReal l = true /\ endsReal l = true /\ noAdjacent l = true.

(** [inner] lies within [outer]. *)
Definition encloses (outer inner : Rect.t) : Prop :=
  Rect.top outer <= Rect.top inner
  /\ Rect.bottom inner <= Rect.bottom outer
  /\ Rect.left outer <= Rect.left inner
  /\ Rect.right inner <= Rect.right outer.

(** [ref?.offsetParent]'s rectangle, when there is one. *)
Definition offsetParentOf (ref : option MenuElement) : option DOMRect.t :=
  match ref with
  | Some el => offsetParent el
  | None => None
  end.

(** The value in the link input would be accepted by the pending item. *)
Definition accepted (insertItem : option Item) (value : string) : bool :=
  match insertItem with
  | Some item => matches item value
  | None => false
  end.

(** The callbacks come in turns, [next] first. *)
Fixpoint alternates (next : ToolbarRender.Notification)
    (l : list ToolbarRender.Notification) : bool :=
  match l, next with
  | [], _ => true
  | ToolbarRender.onOpen :: rest, ToolbarRender.onOpen =>
      alternates ToolbarRender.onClose rest
  | ToolbarRender.onClose :: rest, ToolbarRender.onClose =>
      alternates ToolbarRender.onOpen rest
  | _, _ => false
  end.

Definition isOpen (n : ToolbarRender.Notification) : bool :=
  match n with
  | ToolbarRender.onOpen => true
  | ToolbarRender.onClose => false
  end.

(** [previous], read as a condition: [undefined] is falsy. *)
Definition wasActive (previous : option bool) : bool :=
  match previous with
  | Some b => b
  | None => false
  end.

(** How often each callback was fired. *)
Definition opens (l : list ToolbarRender.Notification) : nat :=
  List.length (filter isOpen l).

Definition closes (l : list ToolbarRender.Notification) : nat :=
  List.length (filter (fun n => negb (isOpen n)) l).

(** [isActive] at the last render, [false] before the first. *)
Definition lastActive (renders : list bool) : bool := last renders false.

End Notions.

Module MoreSamples.
Import SuggestionsMenu.

(** An attachment item found through its title. *)
Definition attachment : Item := Samples.item "attachment" "File attachment".

(** A hidden embed and one without title, beside the video embed. *)
Definition hiddenEmbed : Item := {|
  name := None; title := Some "Hidden"%string; keywords := None;
  defaultHidden := false; attrs := None; appendSpace := false;
  matcher := Some (String.prefix "https://hidden"); visible := Some false
|}.

Definition videoDescriptor : Item := {|
  name := None; title := Some "Video"%string; keywords := None;
  defaultHidden := false; attrs := None; appendSpace := false;
  matcher := Some (String.prefix "https://"); visible := None
|}.

(** "file" typed, an attachment item, no upload capability. *)
Definition fileProps : Props := Samples.menuProps "file" [attachment].

(** "vid" typed, one heading and two embeds. *)
Definition embedProps : Props := {|
  rtl := false; isActive := true; search := "vid"; uploadFile := false;
  onLinkToolbarOpen := false;
  embeds := Some [hiddenEmbed; videoDescriptor];
  filterable := None; items := [Samples.heading1]
|}.

(** Nothing typed yet. *)
Definition emptySearchProps : Props :=
  Samples.menuProps "" [Samples.heading1; Samples.heading2].


(** Only "heading1" is bound. *)
Definition oneCommand : Commands := fun n => String.eqb n "heading1".

(** A list with a separator in the middle. *)
Definition threeEntries : list Item :=
  [Samples.heading1; separator; Samples.heading2].

Definition shiftTab : KeyboardEvent :=
  {| key := "Tab"; shiftKey := true; ctrlKey := false |}.

Definition enter : KeyboardEvent :=
  {| key := "Enter"; shiftKey := false; ctrlKey := false |}.

Definition letter : KeyboardEvent :=
  {| key := "a"; shiftKey := false; ctrlKey := false |}.




(** A panel that is mounted but has no offset parent. *)
Definition detachedPanel : MenuElement :=
  {| offsetWidth := 280; offsetHeight := 100; offsetParent := None |}.

(** A view whose selection runs from (300, 400) to (350, 440). *)
Definition rangeView : View := {|
  selectionFrom := 10; selectionTo := 20;
  coordsAtPos := fun pos _ =>
    if (pos =? 10)%Z
    then Some {| Rect.top := 400; Rect.bottom := 420;
                 Rect.left := 300; Rect.right := 300 |}
    else Some {| Rect.top := 420; Rect.bottom := 440;
                 Rect.left := 350; Rect.right := 350 |}
|}.

(** Toolbar menus with one bound and one unbound entry. *)
Definition bold : Item := Samples.item "strong" "Bold".
Definition comment : Item := Samples.item "comment" "Comment".

Definition menus : ToolbarRender.Menus := {|
  ToolbarRender.getTableMenuItems := [];
  ToolbarRender.getTableColMenuItems := fun _ _ => [];
  ToolbarRender.getTableRowMenuItems := fun _ => [];
  ToolbarRender.getImageMenuItems := [];
  ToolbarRender.getDividerMenuItems := [];
  ToolbarRender.getFormattingMenuItems := fun _ => [bold; separator; comment]
|}.

Definition strongOnly : Commands := fun n => String.eqb n "strong".

Definition linkObserved : ToolbarRender.Observed := {|
  ToolbarRender.isCodeSelection := false;
  ToolbarRender.isDividerSelection := false;
  ToolbarRender.colIndex := None;
  ToolbarRender.rowIndex := None;
  ToolbarRender.link := true;
  ToolbarRender.range :=
    Some {| ToolbarRender.rangeFrom := 10; ToolbarRender.rangeTo := 15;
            ToolbarRender.markHref := "https://example.com" |};
  ToolbarRender.isImageSelection := false
|}.

Definition rangeSelection : SelectionToolbar.Selection :=
  {| SelectionToolbar.class := SelectionToolbar.TextSelection;
     SelectionToolbar.ranges := [(4, 9)%Z] |}.

End MoreSamples.

(* ================================================================== *)
(** * Properties of the extension presets *)
(* ================================================================== *)

Module PresetProperties.
Import Extensions.

Lemma in_rich_iff (e : Extension) :
  In e richExtensions <->
  (In e basicExtensions /\ e <> SimpleImage) \/ In e richAdditions.
Proof.
  unfold richExtensions. rewrite in_app_iff, filter_In.
  unfold differs. destruct (eq_dec e SimpleImage) as [-> | Hne].
  - split; intros [[_ H] | H]; try discriminate; try (now right).
  - split; intros [[H _] | H]; auto.
Qed.

Lemma SimpleImage_not_added : ~ In SimpleImage richAdditions.
Proof.
  unfold richAdditions. simpl.
  intro H. repeat (destruct H as [H | H]; [discriminate H |]). exact H.
Qed.

(** C8, as stated: not every descriptor of the basic preset is in the
    rich preset.  [SimpleImage] is in the first and not in the second. *)
Lemma basic_not_within_rich :
  ~ (forall e, In e basicExtensions -> In e richExtensions).
Proof.
  intro H.
  assert (Hin : In SimpleImage basicExtensions) by (simpl; tauto).
  apply H in Hin. apply in_rich_iff in Hin.
  destruct Hin as [[_ Hne] | Hadd].
  - now apply Hne.
  - now apply SimpleImage_not_added.
Qed.

(** C8, amended: a descriptor of the basic preset is in the rich preset
    exactly when it is not [SimpleImage]; the rich preset is the basic
    list without [SimpleImage], in the order of the basic preset, followed
    by 26 further descriptors, of which [Image] is the first and none is
    in the basic preset. *)
Theorem rich_keeps_basic_except_SimpleImage :
  let added :=
    [ Image; HardBreak; CodeBlock; CodeFence; CheckboxList; CheckboxItem;
      Blockquote; BulletList; OrderedList; Embed; ListItem; Attachment;
      Notice; Heading; HorizontalRule; Table; TableCell; TableHeadCell;
      TableRow; Highlight; TemplatePlaceholder; Folding; BlockMenuTrigger;
      Math; MathBlock; PreventTab ] in
  (forall e, In e basicExtensions ->
     (In e richExtensions <-> e <> SimpleImage))
  /\ richExtensions
     = [ Doc; Paragraph; Emoji; Text; Bold; Code; Italic; Underline; Link;
         Strikethrough; History; SmartText; TrailingNode; PasteHandler;
         Placeholder; MaxLength; DateTime; Keys; ClipboardTextSerializer ]
       ++ added
  /\ List.length added = 26%nat
  /\ (forall e, In e added -> In e richExtensions /\ ~ In e basicExtensions)
  /\ (forall e, In e richExtensions ->
        (In e basicExtensions /\ e <> SimpleImage) \/ In e added).
Proof.
  cbv zeta. split; [| split; [| split; [| split]]].
  - intros e Hbasic. rewrite in_rich_iff. split.
    + intros [[_ Hne] | Hadd]; [exact Hne |].
      intros ->. now apply SimpleImage_not_added.
    + intro Hne. left. now split.
  - reflexivity.
  - reflexivity.
  - intros e Hadded. split.
    + apply in_rich_iff. right. exact Hadded.
    + simpl in Hadded.
      repeat (destruct Hadded as [<- | Hadded];
              [simpl; intro H;
               repeat (destruct H as [H | H]; [discriminate H |]); exact H |]).
      destruct Hadded.
  - intros e Hrich. apply in_rich_iff in Hrich. exact Hrich.
Qed.

Lemma rich_keeps_basic_except_SimpleImage_witness :
  In Bold basicExtensions
  /\ (In Bold richExtensions <-> Bold <> SimpleImage)
  /\ (In Image richExtensions /\ ~ In Image basicExtensions).
Proof.
  assert (H : In Bold basicExtensions) by (simpl; tauto).
  destruct rich_keeps_basic_except_SimpleImage
    as [Hkept [_ [_ [Hadded _]]]].
  split; [exact H |]. split; [exact (Hkept Bold H) |].
  apply Hadded. simpl. left. reflexivity.
Defined.

End PresetProperties.

(* ================================================================== *)
(** * Properties of the overlay positioner *)
(* ================================================================== *)

Module PositionerProperties.
Import SuggestionsMenu.


Lemma gt_false (a b : Q) : gt a b = false <-> a <= b.
Proof.
  unfold gt. rewrite negb_false_iff. apply Qle_bool_iff.
Qed.




Lemma caretPosition_failure (view : View) :
  coordsAtPos view (selectionFrom view) 1%Z = None
  \/ coordsAtPos view (selectionTo view) (-1)%Z = None ->
  caretPosition view = zeroRect.
Proof.
  unfold caretPosition. intros [H | H].
  - now rewrite H.
  - rewrite H. now destruct (coordsAtPos view (selectionFrom view) 1%Z).
Qed.

(** C4, as stated: with the lookup failing, the position returned is not
    the default one.  The panel lands at the origin of its parent, not
    at [left = -10000]. *)
Lemma lookup_failure_not_default :
  let p := calculatePosition Samples.staleView (Some Samples.panel) 1000
             (Samples.menuProps "" []) in
  p <> defaultPosition
  /\ Position.isAbove p = true
  /\ (exists x y, Position.left p = Some x /\ x == 0
                  /\ Position.top p = Some y /\ y == 0).
Proof.
  cbv zeta. split; [| split].
  - intro H. apply (f_equal Position.isAbove) in H.
    vm_compute in H. discriminate H.
  - vm_compute. reflexivity.
  - eexists. eexists. repeat split; vm_compute; reflexivity.
Qed.

(** C4, amended: when the lookup of the anchor fails, nothing is raised:
    the caret rectangle is the zero rectangle, and the active menu is
    placed from it, below the anchor: [isAbove = true], [top] is minus
    the parent's top, [left] comes from the zero left edge (or from the
    panel width in right-to-left mode).  The panel height is taken to be
    non-negative, as measured heights are. *)
Theorem lookup_failure_places_from_zero (view : View)
    (menuRef : option MenuElement) (innerWidth : Q) (props : Props) :
  isActive props = true ->
  coordsAtPos view (selectionFrom view) 1%Z = None
  \/ coordsAtPos view (selectionTo view) (-1)%Z = None ->
  0 <= measuredHeight menuRef ->
  let p := calculatePosition view menuRef innerWidth props in
  let box := parentBox menuRef in
  caretPosition view = zeroRect
  /\ Position.isAbove p = true
  /\ Position.top p = Some (0 - ParentBox.top box)
  /\ Position.bottom p = None
  /\ Position.right p = None
  /\ Position.left p
     = Some (if rtl props then 0 - measuredWidth menuRef
             else Qmin (0 - ParentBox.left box)
                       (innerWidth - ParentBox.left box
                        - measuredWidth menuRef - margin)).
Proof.
  intros Hactive Hfail Hheight p box. subst p box.
  pose proof (caretPosition_failure view Hfail) as Hzero.
  unfold calculatePosition. rewrite Hactive, Hzero. cbn [negb].
  cbn [Rect.top Rect.bottom Rect.left Rect.right zeroRect].
  assert (Hgt : gt (0 - measuredHeight menuRef) margin = false).
  { apply gt_false. unfold margin. lra. }
  rewrite Hgt.
  cbn [Position.isAbove Position.top Position.bottom Position.left
       Position.right].
  repeat split; reflexivity.
Qed.

Lemma lookup_failure_places_from_zero_witness :
  let p := calculatePosition Samples.staleView (Some Samples.panel) 1000
             (Samples.menuProps "" []) in
  Position.isAbove p = true /\ Position.top p = Some (0 - 0).
Proof.
  intro p.
  assert (Hheight : 0 <= measuredHeight (Some Samples.panel)).
  { vm_compute. discriminate. }
  destruct (@lookup_failure_places_from_zero Samples.staleView
              (Some Samples.panel) 1000 (Samples.menuProps "" [])
              eq_refl (or_introl eq_refl) Hheight)
    as [_ [Habove [Htop _]]].
  split; [exact Habove | exact Htop].
Defined.

End PositionerProperties.

(* ================================================================== *)
(** * Properties of the selection toolbar *)
(* ================================================================== *)

Module ToolbarProperties.
Import SelectionToolbar Vocabulary.

Lemma someNonEmpty_iff (nodes : list Node) :
  someNonEmpty nodes = true <->
  exists n, In n nodes /\ contentSize n <> 0%Z.
Proof.
  unfold someNonEmpty. rewrite existsb_exists.
  split; intros [n [Hin Hsize]]; exists n; split; trivial.
  - apply negb_true_iff, Z.eqb_neq in Hsize. exact Hsize.
  - apply negb_true_iff, Z.eqb_neq. exact Hsize.
Qed.

Lemma selectsNode_isNodeSelection (sel : Selection) (n : string) :
  selectsNode sel n = true -> isNodeSelection sel = true.
Proof.
  unfold selectsNode, isNodeSelection. now destruct (class sel).
Qed.

(** C5, as stated: a text selection that holds a hard break and no text
    meets the stated rule (non-empty, not a node selection, a non-empty
    node in its content), and the toolbar is inactive. *)
Lemma textless_selection_inactive :
  statedActive Samples.hardBreakSelected
  /\ useIsActive Samples.hardBreakSelected = false.
Proof.
  split; [| reflexivity].
  right. eexists. split; [reflexivity |]. split; [reflexivity |].
  right. right. split; [reflexivity |].
  eexists. split; [left; reflexivity |]. cbn. discriminate.
Qed.

(** C5, amended: the toolbar is active exactly when a link mark covers
    the position; or the selection is non-empty and selects an [hr] or
    [image] node; or it is non-empty, is not a node selection, is not a
    text selection without text, and its content holds a non-empty
    node. *)
Theorem useIsActive_iff (state : EditorState) :
  useIsActive state = true <-> codedActive state.
Proof.
  unfold useIsActive, codedActive.
  destruct (linkMarkActive state); [split; auto |].
  destruct (selection state) as [sel |].
  2:{ split; [discriminate |]. intros [H | [s [H _]]]; discriminate. }
  destruct (empty sel) eqn:Hempty.
  { split; [discriminate |].
    intros [H | [s [Hs [He _]]]]; [discriminate |].
    injection Hs as <-. congruence. }
  destruct (selectsNode sel "hr") eqn:Hhr.
  { split; auto. intros _. right. exists sel. auto. }
  destruct (selectsNode sel "image") eqn:Himage.
  { split; auto. intros _. right. exists sel. auto 6. }
  destruct (isNodeSelection sel) eqn:Hnode.
  { split; [discriminate |].
    intros [H | [s [Hs [_ H]]]]; [discriminate |].
    injection Hs as <-.
    destruct H as [H | [H | [H _]]]; congruence. }
  destruct (isTextSelection sel && String.eqb (selectionText state) "")
    eqn:Htext.
  { apply andb_true_iff in Htext. destruct Htext as [Ht Hs].
    apply String.eqb_eq in Hs.
    split; [discriminate |].
    intros [H | [s [Hsel [_ H]]]]; [discriminate |].
    injection Hsel as <-.
    destruct H as [H | [H | [_ [H _]]]]; try congruence.
    exfalso. apply H. now split. }
  rewrite someNonEmpty_iff. split.
  - intro Hsome. right. exists sel. repeat split; trivial.
    right. right. repeat split; trivial.
    intros [Ht Hs]. rewrite Ht, Hs in Htext. discriminate Htext.
  - intros [H | [s [Hsel [_ H]]]]; [discriminate |].
    injection Hsel as <-.
    destruct H as [H | [H | [_ [_ H]]]]; try congruence.
Qed.

(** C10.  Invoked on a collapsed selection, [handleOnCreateLink] returns
    with an empty trace: nothing is dispatched, no placeholder mark is
    added, [createAndInsertLink] is not called. *)
Theorem collapsed_selection_creates_no_link (creatingUrlPrefix : string)
    (onCreateLink : bool) (sel : Selection) (title : string) :
  from sel = to sel ->
  let effects := handleOnCreateLink creatingUrlPrefix onCreateLink sel title in
  effects = [] /\ existsb Editor.mutates effects = false.
Proof.
  intro Hcollapsed. cbv zeta. unfold handleOnCreateLink.
  destruct onCreateLink; cbn [negb]; [| split; reflexivity].
  rewrite Hcollapsed, Z.eqb_refl. split; reflexivity.
Qed.

(** On a selection that is not collapsed, with the prop supplied, the
    placeholder mark is dispatched and the creation is started. *)
Lemma expanded_selection_inserts_placeholder (creatingUrlPrefix : string)
    (sel : Selection) (title : string) :
  from sel <> to sel ->
  existsb Editor.mutates
    (handleOnCreateLink creatingUrlPrefix true sel title) = true.
Proof.
  intro Hne. unfold handleOnCreateLink. cbn [negb].
  apply Z.eqb_neq in Hne. rewrite Hne. reflexivity.
Qed.

Lemma collapsed_selection_creates_no_link_witness :
  from Samples.caretSelection = to Samples.caretSelection
  /\ handleOnCreateLink "creating#" true Samples.caretSelection "Roadmap" = [].
Proof.
  split; [reflexivity |].
  exact (proj1 (@collapsed_selection_creates_no_link "creating#" true
                  Samples.caretSelection "Roadmap" eq_refl)).
Defined.

End ToolbarProperties.

(* ================================================================== *)
(** * Properties of the separator clean-up and of the sample sort *)
(* ================================================================== *)

Module SeparatorProperties.
Import SuggestionsMenu Vocabulary.

(** ** Nothing is added *)

Lemma collapseAdjacent_incl (l : list Item) (x : Item) :
  In x (collapseAdjacent l) -> In x l.
Proof.
  induction l as [| a rest IH]; [trivial |].
  cbn [collapseAdjacent]. destruct rest as [| b rest'].
  - trivial.
  - destruct (isSeparator a && isSeparator b).
    + intro H. right. now apply IH.
    + intros [-> | H]; [now left | right; now apply IH].
Qed.

Lemma trimLeading_incl (l : list Item) (x : Item) :
  In x (trimLeading l) -> In x l.
Proof.
  destruct l as [| a rest]; [trivial |].
  cbn [trimLeading]. destruct (isSeparator a); [now right | trivial].
Qed.

Lemma trimTrailing_incl (l : list Item) (x : Item) :
  In x (trimTrailing l) -> In x l.
Proof.
  induction l as [| a rest IH]; [trivial |].
  cbn [trimTrailing]. destruct rest as [| b rest'].
  - destruct (isSeparator a); [contradiction | trivial].
  - intros [-> | H]; [now left | right; now apply IH].
Qed.

Lemma filterExcessSeparators_incl (l : list Item) (x : Item) :
  In x (filterExcessSeparators l) -> In x l.
Proof.
  unfold filterExcessSeparators. intro H.
  now apply collapseAdjacent_incl, trimLeading_incl, trimTrailing_incl.
Qed.

(** ** A list without separators is left alone *)

Lemma collapseAdjacent_free (l : list Item) :
  separatorFree l -> collapseAdjacent l = l.
Proof.
  induction l as [| a rest IH]; [trivial |].
  intro Hfree. cbn [collapseAdjacent]. destruct rest as [| b rest'].
  - reflexivity.
  - rewrite (Hfree a) by now left. cbn [andb].
    f_equal. apply IH. intros x Hx. apply Hfree. now right.
Qed.

Lemma trimLeading_free (l : list Item) :
  separatorFree l -> trimLeading l = l.
Proof.
  destruct l as [| a rest]; [trivial |].
  intro Hfree. cbn [trimLeading]. now rewrite (Hfree a) by now left.
Qed.

Lemma trimTrailing_free (l : list Item) :
  separatorFree l -> trimTrailing l = l.
Proof.
  induction l as [| a rest IH]; [trivial |].
  intro Hfree. cbn [trimTrailing]. destruct rest as [| b rest'].
  - now rewrite (Hfree a) by now left.
  - f_equal. apply IH. intros x Hx. apply Hfree. now right.
Qed.

Lemma filterExcessSeparators_free (l : list Item) :
  separatorFree l -> filterExcessSeparators l = l.
Proof.
  intro Hfree. unfold filterExcessSeparators.
  now rewrite (collapseAdjacent_free Hfree), (trimLeading_free Hfree),
    (trimTrailing_free Hfree).
Qed.

(** ** The shape of the result *)

Lemma collapseAdjacent_head (l : list Item) :
  startsReal (collapseAdjacent l) = startsReal l.
Proof.
  induction l as [| a rest IH]; [trivial |].
  cbn [collapseAdjacent]. destruct rest as [| b rest'].
  - reflexivity.
  - destruct (isSeparator a) eqn:Ha, (isSeparator b) eqn:Hb; cbn [andb].
    + rewrite IH. cbn [startsReal]. now rewrite Ha, Hb.
    + cbn [startsReal]. now rewrite Ha.
    + cbn [startsReal]. now rewrite Ha.
    + cbn [startsReal]. now rewrite Ha.
Qed.

Lemma noAdjacent_cons (a : Item) (l : list Item) :
  noAdjacent (a :: l)
  = negb (isSeparator a && negb (startsReal l) && negb (JS.length l =? 0)%Z)
    && noAdjacent l.
Proof.
  destruct l as [| b rest]; [cbn; now destruct (isSeparator a) |].
  cbn [noAdjacent startsReal]. unfold JS.length. cbn [List.length].
  rewrite negb_involutive.
  replace (Z.of_nat (S (List.length rest)) =? 0)%Z with false
    by (symmetry; apply Z.eqb_neq; lia).
  now rewrite andb_true_r.
Qed.

Lemma collapseAdjacent_noAdjacent (l : list Item) :
  noAdjacent (collapseAdjacent l) = true.
Proof.
  induction l as [| a rest IH]; [trivial |].
  cbn [collapseAdjacent]. destruct rest as [| b rest'].
  - reflexivity.
  - destruct (isSeparator a && isSeparator b) eqn:Hab; [exact IH |].
    rewrite noAdjacent_cons, IH, andb_true_r, collapseAdjacent_head.
    cbn [startsReal]. apply negb_true_iff.
    destruct (isSeparator a), (isSeparator b); try discriminate; reflexivity.
Qed.

Lemma noAdjacent_tail (a : Item) (l : list Item) :
  noAdjacent (a :: l) = true -> noAdjacent l = true.
Proof.
  destruct l as [| b rest]; [trivial |].
  cbn [noAdjacent]. intro H. now apply andb_true_iff in H.
Qed.

Lemma trimLeading_shape (l : list Item) :
  noAdjacent l = true ->
  noAdjacent (trimLeading l) = true /\ startsReal (trimLeading l) = true.
Proof.
  destruct l as [| a rest]; [auto |].
  intro Hl. cbn [trimLeading]. destruct (isSeparator a) eqn:Ha.
  - split; [now apply noAdjacent_tail in Hl |].
    destruct rest as [| b rest']; [reflexivity |].
    cbn [noAdjacent] in Hl. apply andb_true_iff in Hl. destruct Hl as [Hl _].
    rewrite Ha in Hl. cbn [andb] in Hl. exact Hl.
  - split; [exact Hl |]. cbn [startsReal]. now rewrite Ha.
Qed.

Lemma trimTrailing_head (b : Item) (r : list Item) :
  trimTrailing (b :: r) = [] /\ r = [] /\ isSeparator b = true
  \/ exists t, trimTrailing (b :: r) = b :: t.
Proof.
  cbn [trimTrailing]. destruct r as [| c r'].
  - destruct (isSeparator b); [left; auto | right; now exists []].
  - right. now eexists.
Qed.

Lemma trimTrailing_noAdjacent (l : list Item) :
  noAdjacent l = true -> noAdjacent (trimTrailing l) = true.
Proof.
  induction l as [| a rest IH]; [trivial |].
  intro Hadj. destruct rest as [| b rest'].
  - cbn [trimTrailing]. now destruct (isSeparator a).
  - change (trimTrailing (a :: b :: rest'))
      with (a :: trimTrailing (b :: rest')).
    pose proof (noAdjacent_tail _ _ Hadj) as Htail.
    rewrite noAdjacent_cons, (IH Htail), andb_true_r.
    destruct (trimTrailing_head b rest') as [[-> _] | [t ->]];
      [now rewrite !andb_false_r |].
    cbn [startsReal]. cbn [noAdjacent] in Hadj.
    apply andb_true_iff in Hadj. destruct Hadj as [Hab _].
    destruct (isSeparator a), (isSeparator b); try discriminate; reflexivity.
Qed.

Lemma trimTrailing_startsReal (l : list Item) :
  startsReal l = true -> startsReal (trimTrailing l) = true.
Proof.
  destruct l as [| a rest]; [trivial |].
  cbn [startsReal trimTrailing]. intro Ha. destruct rest as [| b rest'].
  - apply negb_true_iff in Ha. rewrite Ha. cbn. now rewrite Ha.
  - exact Ha.
Qed.

Lemma trimTrailing_endsReal (l : list Item) :
  noAdjacent l = true -> endsReal (trimTrailing l) = true.
Proof.
  induction l as [| a rest IH]; [trivial |].
  intro Hadj. destruct rest as [| b rest'].
  - cbn [trimTrailing]. destruct (isSeparator a) eqn:Ha; cbn; [trivial |].
    now rewrite Ha.
  - change (trimTrailing (a :: b :: rest'))
      with (a :: trimTrailing (b :: rest')).
    pose proof (noAdjacent_tail _ _ Hadj) as Htail.
    specialize (IH Htail).
    destruct (trimTrailing_head b rest') as [[-> [_ Hb]] | [t Ht]].
    + cbn [endsReal]. cbn [noAdjacent] in Hadj.
      apply andb_true_iff in Hadj. destruct Hadj as [Hab _].
      rewrite Hb, andb_true_r in Hab. exact Hab.
    + rewrite Ht in *. exact IH.
Qed.

(** The clean-up leaves no separator at either end and no two in a
    row. *)
Lemma filterExcessSeparators_shape (l : list Item) :
  let t := filterExcessSeparators l in
  startsReal t = true /\ endsReal t = true /\ noAdjacent t = true.
Proof.
  cbv zeta. unfold filterExcessSeparators.
  destruct (trimLeading_shape _ (collapseAdjacent_noAdjacent l))
    as [Hadj Hstart].
  split; [| split].
  - now apply trimTrailing_startsReal.
  - now apply trimTrailing_endsReal.
  - now apply trimTrailing_noAdjacent.
Qed.

(** ** Reading the shape through indices *)

Lemma separator_followed (l : list Item) (n : nat) (s : Item) :
  noAdjacent l = true -> endsReal l = true ->
  nth_error l n = Some s -> isSeparator s = true ->
  exists y, nth_error l (S n) = Some y /\ isSeparator y = false.
Proof.
  revert n. induction l as [| a rest IH]; intros n Hadj Hend Hn Hs.
  - now destruct n.
  - destruct n as [| n'].
    + cbn in Hn. injection Hn as ->.
      destruct rest as [| b rest'].
      * cbn in Hend. rewrite Hs in Hend. discriminate Hend.
      * exists b. split; [reflexivity |].
        cbn [noAdjacent] in Hadj. apply andb_true_iff in Hadj.
        destruct Hadj as [Hab _]. rewrite Hs in Hab.
        cbn [andb] in Hab. now apply negb_true_iff in Hab.
    + cbn [nth_error] in Hn.
      destruct rest as [| b rest']; [now destruct n' |].
      apply (IH n'); trivial. now apply noAdjacent_tail in Hadj.
Qed.

Lemma separator_preceded (l : list Item) (m : nat) (s : Item) :
  noAdjacent l = true ->
  nth_error l (S m) = Some s -> isSeparator s = true ->
  exists y, nth_error l m = Some y /\ isSeparator y = false.
Proof.
  revert m. induction l as [| a rest IH]; intros m Hadj Hm Hs.
  - discriminate Hm.
  - cbn [nth_error] in Hm. destruct m as [| m'].
    + destruct rest as [| b rest']; [discriminate Hm |].
      cbn in Hm. injection Hm as ->.
      exists a. split; [reflexivity |].
      cbn [noAdjacent] in Hadj. apply andb_true_iff in Hadj.
      destruct Hadj as [Hab _]. rewrite Hs, andb_true_r in Hab.
      now apply negb_true_iff in Hab.
    + cbn [nth_error]. apply IH; trivial.
      now apply noAdjacent_tail in Hadj.
Qed.

Lemma index_Some {A : Type} (l : list A) (i : Z) (x : A) :
  JS.index l i = Some x ->
  (0 <= i)%Z /\ (i < JS.length l)%Z /\ nth_error l (Z.to_nat i) = Some x.
Proof.
  unfold JS.index, JS.length. destruct (i <? 0)%Z eqn:Hneg; [discriminate |].
  apply Z.ltb_ge in Hneg. intro Hnth. repeat split; trivial.
  assert (Z.to_nat i < List.length l)%nat
    by (apply nth_error_Some; congruence).
  lia.
Qed.

Lemma index_of_nat {A : Type} (l : list A) (n : nat) :
  JS.index l (Z.of_nat n) = nth_error l n.
Proof.
  unfold JS.index. replace (Z.of_nat n <? 0)%Z with false
    by (symmetry; apply Z.ltb_ge; lia).
  now rewrite Nat2Z.id.
Qed.

Lemma index_beyond {A : Type} (l : list A) (i : Z) :
  (JS.length l <= i)%Z -> JS.index l i = None.
Proof.
  unfold JS.index, JS.length. intro H.
  destruct (i <? 0)%Z; [reflexivity |].
  apply nth_error_None. lia.
Qed.

Lemma namedSeparator_Some (l : list Item) (i : Z) :
  namedSeparator (JS.index l i) = true ->
  exists s, JS.index l i = Some s /\ isSeparator s = true.
Proof.
  unfold namedSeparator, isSeparator.
  destruct (JS.index l i) as [s |]; [| discriminate].
  intro H. now exists s.
Qed.

Lemma realAt_not_separator (l : list Item) (i : Z) :
  realAt l i -> namedSeparator (JS.index l i) = false.
Proof.
  intros [x [Hx Hreal]]. rewrite Hx. exact Hreal.
Qed.

(** After a separator comes a real entry. *)
Lemma shape_next (l : list Item) (i : Z) :
  noAdjacent l = true -> endsReal l = true ->
  namedSeparator (JS.index l i) = true -> realAt l (i + 1).
Proof.
  intros Hadj Hend Hsep.
  destruct (namedSeparator_Some _ _ Hsep) as [s [Hs Hss]].
  destruct (index_Some _ _ Hs) as [Hpos [_ Hnth]].
  destruct (separator_followed _ _ Hadj Hend Hnth Hss) as [y [Hy Hreal]].
  exists y. split; [| exact Hreal].
  replace (i + 1)%Z with (Z.of_nat (S (Z.to_nat i))) by lia.
  now rewrite index_of_nat.
Qed.

(** Before a separator comes a real entry. *)
Lemma shape_previous (l : list Item) (i : Z) :
  noAdjacent l = true -> startsReal l = true ->
  namedSeparator (JS.index l i) = true -> realAt l (i - 1).
Proof.
  intros Hadj Hstart Hsep.
  destruct (namedSeparator_Some _ _ Hsep) as [s [Hs Hss]].
  destruct (index_Some _ _ Hs) as [Hpos [_ Hnth]].
  destruct (Z.to_nat i) as [| m] eqn:Hi.
  - destruct l as [| a rest]; [discriminate Hnth |].
    cbn in Hnth. injection Hnth as ->.
    cbn in Hstart. rewrite Hss in Hstart. discriminate Hstart.
  - destruct (separator_preceded _ _ Hadj Hnth Hss) as [y [Hy Hreal]].
    exists y. split; [| exact Hreal].
    replace (i - 1)%Z with (Z.of_nat m) by lia.
    now rewrite index_of_nat.
Qed.

(** With no separator at the end, the last real entry is the last
    entry. *)
Lemma lastReal_is_last (l : list Item) (i : Z) :
  noAdjacent l = true -> endsReal l = true ->
  lastReal l i -> i = (JS.length l - 1)%Z.
Proof.
  intros Hadj Hend [[x [Hx Hreal]] Hlater].
  destruct (index_Some _ _ Hx) as [Hpos [Hlt _]].
  destruct (Z.eq_dec i (JS.length l - 1)) as [| Hne]; [trivial | exfalso].
  assert (Hin : (Z.to_nat (i + 1) < List.length l)%nat)
    by (unfold JS.length in *; lia).
  apply nth_error_Some in Hin.
  destruct (nth_error l (Z.to_nat (i + 1))) as [y |] eqn:Hy; [| congruence].
  assert (Hiy : JS.index l (i + 1) = Some y).
  { unfold JS.index. replace (i + 1 <? 0)%Z with false
      by (symmetry; apply Z.ltb_ge; lia). exact Hy. }
  assert (Hsy : isSeparator y = true) by (apply (Hlater (i + 1)%Z); [lia | trivial]).
  assert (Hsep : namedSeparator (JS.index l (i + 1)) = true)
    by (rewrite Hiy; exact Hsy).
  destruct (shape_next _ _ Hadj Hend Hsep) as [z [Hz Hzreal]].
  rewrite (Hlater (i + 1 + 1)%Z z) in Hzreal; [discriminate | lia | trivial].
Qed.

(** ** The sample sort rearranges *)

Lemma sinkLeft_permutation {A : Type} (cmp : A -> A -> Q) (x : A)
    (acc : list A) :
  Permutation (JS.sinkLeft cmp x acc) (x :: acc).
Proof.
  induction acc as [| y r IH]; cbn [JS.sinkLeft]; [reflexivity |].
  destruct (JS.negative (cmp x y)); [| reflexivity].
  rewrite IH. apply perm_swap.
Qed.

Lemma insertion_fold_permutation {A : Type} (cmp : A -> A -> Q)
    (l acc : list A) :
  Permutation (fold_left (fun acc x => JS.sinkLeft cmp x acc) l acc)
              (l ++ acc).
Proof.
  revert acc. induction l as [| x l IH]; intro acc; cbn [fold_left app];
    [reflexivity |].
  rewrite IH, sinkLeft_permutation. symmetry. apply Permutation_middle.
Qed.

Lemma insertionSort_permutation {A : Type} (cmp : A -> A -> Q) (l : list A) :
  Permutation (JS.insertionSort cmp l) l.
Proof.
  unfold JS.insertionSort. rewrite <- Permutation_rev.
  now rewrite insertion_fold_permutation, app_nil_r.
Qed.

Lemma asciiRuntime_permutes : JS.SortPermutes JS.asciiRuntime.
Proof.
  intros A cmp l. apply insertionSort_permutation.
Qed.

(** A comparator that is never negative asks for no move: the insertion
    sort returns the array as it was. *)
Lemma insertion_fold_nonnegative {A : Type} (cmp : A -> A -> Q)
    (l acc : list A) :
  (forall a b, 0 <= cmp a b) ->
  fold_left (fun acc x => JS.sinkLeft cmp x acc) l acc = rev l ++ acc.
Proof.
  intro Hcmp. revert acc.
  induction l as [| x l IH]; intro acc; cbn [fold_left rev app]; [reflexivity |].
  rewrite IH, <- app_assoc. cbn [app]. f_equal.
  destruct acc as [| y r]; cbn [JS.sinkLeft]; [reflexivity |].
  unfold JS.negative.
  replace (Qle_bool 0 (cmp x y)) with true
    by (symmetry; apply Qle_bool_iff, Hcmp).
  reflexivity.
Qed.

Lemma insertionSort_nonnegative {A : Type} (cmp : A -> A -> Q) (l : list A) :
  (forall a b, 0 <= cmp a b) -> JS.insertionSort cmp l = l.
Proof.
  intro Hcmp. unfold JS.insertionSort.
  now rewrite (insertion_fold_nonnegative cmp l [] Hcmp), app_nil_r, rev_involutive.
Qed.

End SeparatorProperties.

(* ================================================================== *)
(** * Properties of the candidate list *)
(* ================================================================== *)

Module CandidateProperties.
Import SuggestionsMenu Vocabulary SeparatorProperties.

Lemma filtered_incl {R : JS.Runtime} (props : Props) (commands : Commands)
    (item : Item) :
  JS.SortPermutes R ->
  In item (filtered props commands) ->
  In item (allItems props) /\ keep props commands item = true.
Proof.
  intros Hsort Hin. unfold filtered in Hin.
  apply filterExcessSeparators_incl in Hin.
  apply (Permutation_in _ (Hsort _ _ _)) in Hin.
  unfold filterStep in Hin. now apply filter_In in Hin.
Qed.

Lemma truthy_nonempty (s : string) : s <> EmptyString -> JS.truthy (Some s) = true.
Proof.
  intro H. cbn [JS.truthy]. apply negb_true_iff. now apply String.eqb_neq.
Qed.

(** C1, as stated: with "head" typed and filtering on, a separator
    between two matching items survives, and neither its title nor its
    keywords contain "head". *)
Lemma separator_survives_filtering :
  filterableMode Samples.separatedProps
  /\ search Samples.separatedProps <> EmptyString
  /\ ~ (forall item,
          In item (@filtered JS.asciiRuntime Samples.separatedProps
                     Samples.allCommands) ->
          @containsSearch JS.asciiRuntime
            (search Samples.separatedProps) item).
Proof.
  split; [discriminate |]. split; [discriminate |].
  intro H. specialize (H separator).
  assert (Hin : In separator
                  (@filtered JS.asciiRuntime Samples.separatedProps
                     Samples.allCommands)).
  { vm_compute. right. left. reflexivity. }
  destruct (H Hin) as [Htitle | Hkeywords].
  - vm_compute in Htitle. discriminate Htitle.
  - vm_compute in Hkeywords. discriminate Hkeywords.
Qed.

(** C1, amended: in filterable mode and for a non-empty search string,
    every entry of the candidate list other than a separator has a title
    or keywords that contain the search string, case put aside.  This
    holds for every props value, hence after every recomputation, and
    for every engine whose [sort] rearranges the array. *)
Theorem surviving_candidates_contain_search {R : JS.Runtime} (props : Props)
    (commands : Commands) (item : Item) :
  JS.SortPermutes R ->
  filterableMode props ->
  search props <> EmptyString ->
  In item (filtered props commands) ->
  isSeparator item = false ->
  containsSearch (search props) item.
Proof.
  intros Hsort Hmode Hsearch Hin Hreal.
  destruct (filtered_incl _ _ _ Hsort Hin) as [_ Hkeep].
  unfold keep in Hkeep. unfold isSeparator in Hreal. rewrite Hreal in Hkeep.
  rewrite (truthy_nonempty Hsearch) in Hkeep. cbn [negb] in Hkeep.
  destruct (JS.truthy (name item)
            && negb (commands (JS.orEmpty (name item)))
            && negb (commands (createName (name item))));
    [discriminate Hkeep |].
  destruct (negb (uploadFile props) && JS.strictEq (name item) "image");
    [discriminate Hkeep |].
  unfold filterableMode in Hmode.
  destruct (filterable props) as [[|] |]; cbn [negb] in Hkeep;
    try (now contradiction Hmode);
    apply orb_true_iff in Hkeep; exact Hkeep.
Qed.

Lemma surviving_candidates_contain_search_witness :
  @containsSearch JS.asciiRuntime "head" Samples.heading2.
Proof.
  apply (@surviving_candidates_contain_search JS.asciiRuntime
           Samples.headProps Samples.allCommands Samples.heading2
           asciiRuntime_permutes).
  - discriminate.
  - discriminate.
  - vm_compute. right. left. reflexivity.
  - reflexivity.
Defined.

(** ** The comparator *)

(** The comparator never looks at its second argument. *)
Lemma compareFn_unary {R : JS.Runtime} (props : Props) (a b c : Item) :
  compareFn props a b = compareFn props a c.
Proof.
  reflexivity.
Qed.

(** With the sample engine, whose scores are 0 or 1, sorting leaves the
    filtered items in the order of the filtering step. *)
Lemma sample_engine_keeps_order (props : Props) (commands : Commands) :
  @filtered JS.asciiRuntime props commands
  = filterExcessSeparators (@filterStep JS.asciiRuntime props commands).
Proof.
  unfold filtered. cbn [JS.arraySort JS.asciiRuntime].
  rewrite insertionSort_nonnegative; [reflexivity |].
  intros a b. unfold compareFn.
  destruct (JS.truthy (Some (JS.toLowerCase (search props)))
            && JS.truthy (title a)); [| discriminate].
  cbn [JS.commandScore JS.asciiRuntime]. unfold JS.containsScore.
  destruct (JS.includes _ _); discriminate.
Qed.

(** ** The "head" scenario *)

Lemma keep_available {R : JS.Runtime} (commands : Commands) (n : string) :
  commands n = true \/ commands (createName (Some n)) = true ->
  negb (commands (JS.orEmpty (Some n))) && negb (commands (createName (Some n)))
  = false.
Proof.
  cbn [JS.orEmpty]. intros [-> | ->]; [reflexivity | apply andb_false_r].
Qed.

(** In the "head" scenario, whatever the scorer and whatever permutation
    the engine's sort returns, the filtering step keeps the two headings
    and drops "Image", and the candidate list is the array sort of the two
    headings under the comparator of the component, whose value on a
    heading is the fuzzy score of its own title against "head".  The
    heading commands are taken to be bound, as the menu drops items whose
    command is not. *)
Lemma head_scenario_keeps_headings {R : JS.Runtime} (commands : Commands) :
  JS.SortPermutes R ->
  JS.toLowerCase "head" = "head"%string ->
  JS.toLowerCase "Big heading" = "big heading"%string ->
  JS.toLowerCase "Medium heading" = "medium heading"%string ->
  commands "heading1"%string = true
  \/ commands (createName (Some "heading1"%string)) = true ->
  commands "heading2"%string = true
  \/ commands (createName (Some "heading2"%string)) = true ->
  let result := filtered Samples.headProps commands in
  filterStep Samples.headProps commands = [Samples.heading1; Samples.heading2]
  /\ result
     = JS.arraySort (compareFn Samples.headProps)
         [Samples.heading1; Samples.heading2]
  /\ (forall other,
        compareFn Samples.headProps Samples.heading1 other
        = JS.commandScore "Big heading" "head"
        /\ compareFn Samples.headProps Samples.heading2 other
           = JS.commandScore "Medium heading" "head")
  /\ Permutation result [Samples.heading1; Samples.heading2]
  /\ ~ In Samples.image result
  /\ (forall item, In item result -> name item <> Some "image"%string).
Proof.
  intros Hsort Hhead Hbig Hmedium H1 H2 result.
  assert (Hstep : filterStep Samples.headProps commands
                  = [Samples.heading1; Samples.heading2]).
  { unfold filterStep, allItems. cbn [embeds Samples.headProps
      Samples.menuProps embedItems JS.length List.length Z.of_nat Z.ltb
      Z.compare items filter].
    unfold keep.
    cbn [name title keywords Samples.heading1 Samples.heading2 Samples.image
         Samples.item search uploadFile filterable Samples.headProps
         Samples.menuProps JS.orEmpty].
    rewrite Hhead, Hbig, Hmedium.
    assert (E1 := keep_available commands "heading1" H1).
    assert (E2 := keep_available commands "heading2" H2).
    cbn [JS.orEmpty] in E1, E2.
    change (JS.truthy (Some "heading1"%string)) with true.
    change (JS.truthy (Some "heading2"%string)) with true.
    change (JS.truthy (Some "image"%string)) with true.
    cbn [andb]. rewrite E1, E2.
    change (JS.strictEq (Some "heading1"%string) "separator") with false.
    change (JS.strictEq (Some "heading2"%string) "separator") with false.
    change (JS.strictEq (Some "image"%string) "separator") with false.
    change (JS.strictEq (Some "heading1"%string) "image") with false.
    change (JS.strictEq (Some "heading2"%string) "image") with false.
    change (JS.strictEq (Some "image"%string) "image") with true.
    change (JS.truthy (Some "head"%string)) with true.
    change (JS.includes "big heading" "head") with true.
    change (JS.includes "medium heading" "head") with true.
    cbn [negb andb orb].
    now destruct (negb (commands "image"%string)
                  && negb (commands (createName (Some "image"%string)))). }
  assert (Hperm : Permutation result [Samples.heading1; Samples.heading2]).
  { subst result. unfold filtered. rewrite Hstep.
    rewrite filterExcessSeparators_free; [apply Hsort |].
    intros x Hx. apply (Permutation_in _ (Hsort _ _ _)) in Hx.
    destruct Hx as [<- | [<- | []]]; reflexivity. }
  assert (Hnames : forall item, In item result -> name item <> Some "image"%string).
  { intros x Hx. apply (Permutation_in _ Hperm) in Hx.
    destruct Hx as [<- | [<- | []]]; discriminate. }
  split; [exact Hstep |]. split; [| split; [| split; [| split]]].
  - subst result. unfold filtered. rewrite Hstep.
    apply filterExcessSeparators_free.
    intros x Hx. apply (Permutation_in _ (Hsort _ _ _)) in Hx.
    destruct Hx as [<- | [<- | []]]; reflexivity.
  - intro other. unfold compareFn.
    cbn [search Samples.headProps Samples.menuProps title Samples.heading1
         Samples.heading2 Samples.item JS.orEmpty].
    rewrite Hhead.
    change (JS.truthy (Some "head"%string)) with true.
    change (JS.truthy (Some "Big heading"%string)) with true.
    change (JS.truthy (Some "Medium heading"%string)) with true.
    cbn [andb]. split; reflexivity.
  - exact Hperm.
  - intro Hin. now apply (Hnames _ Hin).
  - exact Hnames.
Qed.






End CandidateProperties.

(* ================================================================== *)
(** * Properties of the handlers of the suggestion menu *)
(* ================================================================== *)

Module HandlerProperties.
Import Editor SuggestionsMenu Vocabulary SeparatorProperties.

(** Evaluate the comparisons between string literals in the goal. *)
Ltac eval_string_tests :=
  repeat match goal with
         | |- context [String.eqb ?a ?b] =>
             let v := eval vm_compute in (String.eqb a b) in
             progress change (String.eqb a b) with v
         end.

Lemma length_nonzero {A : Type} (l : list A) :
  l <> [] -> (JS.length l =? 0)%Z = false.
Proof.
  intro H. apply Z.eqb_neq. unfold JS.length.
  destruct l; [contradiction | cbn [List.length]; lia].
Qed.

Lemma isNext_cases (event : KeyboardEvent) :
  isNext event = true ->
  key event = "ArrowDown"%string
  \/ (key event = "Tab"%string /\ shiftKey event = false)
  \/ (key event = "n"%string /\ ctrlKey event = true).
Proof.
  unfold isNext. intro H.
  apply orb_true_iff in H. destruct H as [H | H].
  - apply orb_true_iff in H. destruct H as [H | H].
    + left. now apply String.eqb_eq.
    + apply andb_true_iff in H. destruct H as [Hk Hs].
      right. left. split; [now apply String.eqb_eq | now apply negb_true_iff].
  - apply andb_true_iff in H. destruct H as [Hc Hk].
    right. right. split; [now apply String.eqb_eq | exact Hc].
Qed.

Lemma isPrevious_cases (event : KeyboardEvent) :
  isPrevious event = true ->
  key event = "ArrowUp"%string
  \/ (key event = "Tab"%string /\ shiftKey event = true)
  \/ (key event = "p"%string /\ ctrlKey event = true).
Proof.
  unfold isPrevious. intro H.
  apply orb_true_iff in H. destruct H as [H | H].
  - apply orb_true_iff in H. destruct H as [H | H].
    + left. now apply String.eqb_eq.
    + apply andb_true_iff in H. destruct H as [Hk Hs].
      right. left. split; [now apply String.eqb_eq | exact Hs].
  - apply andb_true_iff in H. destruct H as [Hc Hk].
    right. right. split; [now apply String.eqb_eq | exact Hc].
Qed.

(** What the "next" chord does on a non-empty list. *)
Lemma next_trace {R : JS.Runtime} (props : Props) (commands : Commands)
    (l : list Item) (i : Z) (event : KeyboardEvent) :
  isActive props = true -> isNext event = true -> l <> [] ->
  handleKeyDown props commands l i event
  = ([ PreventDefault; StopPropagation;
       SetSelectedIndex
         (Z.min (if namedSeparator (JS.index l (i + 1))
                 then i + 1 + 1 else i + 1)
                (JS.length l - 1)) ],
     Normal tt).
Proof.
  intros Hactive Hnext Hne.
  unfold handleKeyDown. rewrite Hactive, (length_nonzero Hne).
  unfold isNext, isPrevious.
  destruct event as [k s c]. cbn [key shiftKey ctrlKey] in *.
  destruct (isNext_cases _ Hnext) as [Hk | [[Hk Hs] | [Hk Hc]]];
    cbn [key shiftKey ctrlKey] in Hk; subst k;
    try (cbn [shiftKey] in Hs; subst s);
    try (cbn [ctrlKey] in Hc; subst c);
    eval_string_tests;
    repeat match goal with b : bool |- _ => destruct b end; reflexivity.
Qed.

(** What the "previous" chord does on a non-empty list. *)
Lemma previous_trace {R : JS.Runtime} (props : Props) (commands : Commands)
    (l : list Item) (i : Z) (event : KeyboardEvent) :
  isActive props = true -> isPrevious event = true -> l <> [] ->
  handleKeyDown props commands l i event
  = ([ PreventDefault; StopPropagation;
       SetSelectedIndex
         (Z.max 0 (if namedSeparator (JS.index l (i - 1))
                   then i - 1 - 1 else i - 1)) ],
     Normal tt).
Proof.
  intros Hactive Hprev Hne.
  unfold handleKeyDown. rewrite Hactive, (length_nonzero Hne).
  unfold isNext, isPrevious.
  destruct event as [k s c]. cbn [key shiftKey ctrlKey] in *.
  destruct (isPrevious_cases _ Hprev) as [Hk | [[Hk Hs] | [Hk Hc]]];
    cbn [key shiftKey ctrlKey] in Hk; subst k;
    try (cbn [shiftKey] in Hs; subst s);
    try (cbn [ctrlKey] in Hc; subst c);
    eval_string_tests;
    repeat match goal with b : bool |- _ => destruct b end; reflexivity.
Qed.

(** On an empty list either chord closes the overlay and sets no index. *)
Lemma empty_list_closes {R : JS.Runtime} (props : Props) (commands : Commands)
    (i : Z) (event : KeyboardEvent) :
  isActive props = true -> isNext event = true \/ isPrevious event = true ->
  handleKeyDown props commands [] i event
  = ([PreventDefault; StopPropagation; Close false; Focus], Normal tt).
Proof.
  intros Hactive Hchord.
  unfold handleKeyDown. rewrite Hactive.
  unfold isNext, isPrevious.
  destruct event as [k s c]. cbn [key shiftKey ctrlKey] in *.
  destruct Hchord as [Hnext | Hprev].
  - destruct (isNext_cases _ Hnext) as [Hk | [[Hk Hs] | [Hk Hc]]];
      cbn [key shiftKey ctrlKey] in Hk; subst k;
      try (cbn [shiftKey] in Hs; subst s);
      try (cbn [ctrlKey] in Hc; subst c);
      eval_string_tests;
      repeat match goal with b : bool |- _ => destruct b end; reflexivity.
  - destruct (isPrevious_cases _ Hprev) as [Hk | [[Hk Hs] | [Hk Hc]]];
      cbn [key shiftKey ctrlKey] in Hk; subst k;
      try (cbn [shiftKey] in Hs; subst s);
      try (cbn [ctrlKey] in Hc; subst c);
      eval_string_tests;
      repeat match goal with b : bool |- _ => destruct b end; reflexivity.
Qed.

Lemma filtered_shape {R : JS.Runtime} (props : Props) (commands : Commands) :
  let l := filtered props commands in
  startsReal l = true /\ endsReal l = true /\ noAdjacent l = true.
Proof.
  apply filterExcessSeparators_shape.
Qed.

(** C2.  On a non-empty candidate list of the active menu: "next" at
    the last real entry leaves the index there; "previous" at index 0
    leaves it at 0; when the entry one step away is a separator, the
    index moves exactly one step further in the direction of travel, to
    an entry that is not a separator. *)
Theorem navigation_clamps_and_skips_separators {R : JS.Runtime}
    (props : Props) (commands : Commands) (s : State)
    (event : KeyboardEvent) :
  isActive props = true ->
  filtered props commands <> [] ->
  let l := filtered props commands in
  let i := selectedIndex s in
  let i' := selectedIndex (afterKeyDown props commands s event) in
  (isNext event = true -> lastReal l i -> i' = i)
  /\ (isPrevious event = true -> i = 0%Z -> i' = 0%Z)
  /\ (isNext event = true -> namedSeparator (JS.index l (i + 1)) = true ->
        i' = (i + 2)%Z /\ realAt l (i + 2))
  /\ (isPrevious event = true ->
        namedSeparator (JS.index l (i - 1)) = true ->
        i' = (i - 2)%Z /\ realAt l (i - 2)).
Proof.
  intros Hactive Hne l i i'.
  destruct (filtered_shape props commands) as [Hstart [Hend Hadj]].
  fold l in Hstart, Hend, Hadj.
  subst i'. unfold afterKeyDown. fold l. fold i.
  split; [| split; [| split]].
  - intros Hnext Hlast.
    rewrite (@next_trace R props commands l i event Hactive Hnext Hne).
    cbn [trace fst commit fold_left setState selectedIndex].
    pose proof (lastReal_is_last Hadj Hend Hlast) as Hi.
    rewrite (@index_beyond Item l (i + 1)%Z) by lia.
    cbn [namedSeparator]. lia.
  - intros Hprev Hzero.
    rewrite (@previous_trace R props commands l i event Hactive Hprev Hne).
    cbn [trace fst commit fold_left setState selectedIndex].
    rewrite Hzero.
    replace (JS.index l (0 - 1)%Z) with (@None Item) by reflexivity.
    cbn [namedSeparator]. lia.
  - intros Hnext Hsep.
    rewrite (@next_trace R props commands l i event Hactive Hnext Hne).
    cbn [trace fst commit fold_left setState selectedIndex].
    rewrite Hsep.
    pose proof (shape_next _ _ Hadj Hend Hsep) as Hreal.
    replace (i + 1 + 1)%Z with (i + 2)%Z in * by lia.
    split; [| exact Hreal].
    destruct Hreal as [x [Hx _]].
    destruct (index_Some _ _ Hx) as [_ [Hlt _]]. lia.
  - intros Hprev Hsep.
    rewrite (@previous_trace R props commands l i event Hactive Hprev Hne).
    cbn [trace fst commit fold_left setState selectedIndex].
    rewrite Hsep.
    pose proof (shape_previous _ _ Hadj Hstart Hsep) as Hreal.
    replace (i - 1 - 1)%Z with (i - 2)%Z in * by lia.
    split; [| exact Hreal].
    destruct Hreal as [x [Hx _]].
    destruct (index_Some _ _ Hx) as [Hpos _]. lia.
Qed.

Lemma navigation_clamps_and_skips_separators_witness :
  selectedIndex
    (@afterKeyDown JS.asciiRuntime Samples.separatedProps Samples.allCommands
       {| insertItem := None; selectedIndex := 0 |} Samples.arrowDown)
  = 2%Z.
Proof.
  assert (Hne : @filtered JS.asciiRuntime Samples.separatedProps
                  Samples.allCommands <> []).
  { vm_compute. discriminate. }
  destruct (@navigation_clamps_and_skips_separators JS.asciiRuntime
              Samples.separatedProps Samples.allCommands
              {| insertItem := None; selectedIndex := 0 |} Samples.arrowDown
              eq_refl Hne) as [_ [_ [Hskip _]]].
  destruct (Hskip eq_refl) as [Hindex _].
  - vm_compute. reflexivity.
  - exact Hindex.
Defined.

(** ** Pasting into the link input *)

(** C7, as stated: a pasted text that the matcher rejects shows no
    toast.  The handler does nothing at all. *)
Lemma rejected_paste_shows_no_toast :
  let r := @handleLinkInputPaste JS.asciiRuntime (Samples.menuProps "" [])
             Samples.allCommands (Some Samples.videoEmbed) "not a link" in
  mode (Samples.menuProps "" []) Samples.linkInputState = linkEditing
  /\ matches Samples.videoEmbed "not a link" = false
  /\ existsb isToast (trace r) = false.
Proof.
  cbv zeta. repeat split.
Qed.

(** The keydown handler of the link input, taken by itself, has the
    toast in its Enter branch.  In the mounted component the window
    listener, registered for the capture phase, stops an Enter keydown
    before it is delivered to the input. *)
Lemma rejected_enter_shows_toast {R : JS.Runtime} (props : Props)
    (commands : Commands) (item : Item) (value : string) :
  isActive props = true ->
  matches item value = false ->
  handleLinkInputKeydown props commands (Some item) "Enter" value
  = ([PreventDefault; StopPropagation; ShowToast embedInvalidLink], Normal tt).
Proof.
  intros Hactive Hno. unfold handleLinkInputKeydown.
  rewrite Hactive, Hno. reflexivity.
Qed.

Lemma mode_linkEditing (props : Props) (s : State) :
  mode props s = linkEditing -> isActive props = true.
Proof.
  unfold mode. destruct (isActive props); [trivial | discriminate].
Qed.

(** C7, amended: in the link-editing state, a pasted text that the
    matcher of the active candidate rejects leaves an empty trace: no
    document mutation, no toast, and the state stays [linkEditing]; a
    pasted text that it accepts is committed at once as an [embed]
    command with the text as [href], without Enter, the embed command
    being bound under its own name or under its "create" name. *)
Theorem paste_into_link_input {R : JS.Runtime} (props : Props)
    (commands : Commands) (s : State) (item : Item) (text : string) :
  mode props s = linkEditing ->
  insertItem s = Some item ->
  (matches item text = false ->
     let r := handleLinkInputPaste props commands (insertItem s) text in
     r = ([], Normal tt)
     /\ existsb mutates (trace r) = false
     /\ existsb isToast (trace r) = false
     /\ afterPaste props commands s text = s
     /\ mode props (afterPaste props commands s text) = linkEditing)
  /\ (matches item text = true ->
      commands "embed"%string = true
      \/ commands (createName (Some "embed"%string)) = true ->
      handleLinkInputPaste props commands (insertItem s) text
      = ([ PreventDefault; StopPropagation; ClearSearch;
           RunCommand (if commands "embed"%string then "embed"%string
                       else createName (Some "embed"%string))
                      (Some [("href"%string, text)]);
           Close false ],
         Normal tt)).
Proof.
  intros Hmode Hitem.
  pose proof (mode_linkEditing _ _ Hmode) as Hactive.
  split.
  - intro Hno. cbv zeta.
    assert (Hrun : handleLinkInputPaste props commands (insertItem s) text
                   = ([], Normal tt)).
    { unfold handleLinkInputPaste. now rewrite Hactive, Hitem, Hno. }
    unfold afterPaste. rewrite Hrun. cbn [trace fst commit fold_left existsb].
    auto.
  - intros Hyes Hbound.
    unfold handleLinkInputPaste. rewrite Hactive, Hitem, Hyes. cbn [negb].
    unfold insertNode.
    cbn [name attrs appendSpace embedNode JS.orEmpty].
    change (JS.truthy (Some "embed"%string)) with true. cbn iota.
    destruct (commands "embed"%string) eqn:Hembed; [reflexivity |].
    destruct Hbound as [Hb | Hb]; [discriminate Hb |].
    rewrite Hb. reflexivity.
Qed.

Lemma paste_into_link_input_witness :
  trace (@handleLinkInputPaste JS.asciiRuntime (Samples.menuProps "" [])
           Samples.allCommands (Some Samples.videoEmbed)
           "https://example.com/v/1")
  = [ PreventDefault; StopPropagation; ClearSearch;
      RunCommand "embed" (Some [("href"%string, "https://example.com/v/1"%string)]);
      Close false ].
Proof.
  destruct (@paste_into_link_input JS.asciiRuntime (Samples.menuProps "" [])
              Samples.allCommands Samples.linkInputState Samples.videoEmbed
              "https://example.com/v/1" eq_refl eq_refl) as [_ Hcommit].
  cbn [insertItem Samples.linkInputState] in Hcommit.
  rewrite (Hcommit eq_refl (or_introl eq_refl)). reflexivity.
Defined.

End HandlerProperties.

(* ================================================================== *)
(** * Properties of the window listeners *)
(* ================================================================== *)

Module ListenerProperties.
Import Listeners.








End ListenerProperties.

(* ================================================================== *)
(** * Further properties of the overlay positioner *)
(* ================================================================== *)

Module PlacementProperties.
Import SuggestionsMenu Notions PositionerProperties.

(** In left-to-right mode the active panel starts no further right than
    the anchor, and its right edge, with the margin, stays within the
    width of the window. *)
Theorem left_edge_is_clamped (view : View) (menuRef : option MenuElement)
    (innerWidth : Q) (props : Props) :
  isActive props = true ->
  rtl props = false ->
  let box := parentBox menuRef in
  exists x,
    Position.left (calculatePosition view menuRef innerWidth props) = Some x
    /\ x <= Rect.left (caretPosition view) - ParentBox.left box
    /\ x + ParentBox.left box + measuredWidth menuRef + margin <= innerWidth
    /\ (x == Rect.left (caretPosition view) - ParentBox.left box
        \/ x + ParentBox.left box + measuredWidth menuRef + margin
           == innerWidth).
Proof.
  intros Hactive Hrtl box. subst box.
  unfold calculatePosition. rewrite Hactive, Hrtl. cbn [negb].
  set (a := Rect.left (caretPosition view) - ParentBox.left (parentBox menuRef)).
  set (b := innerWidth - ParentBox.left (parentBox menuRef)
            - measuredWidth menuRef - margin).
  exists (Qmin a b).
  split.
  - destruct (gt _ _); reflexivity.
  - pose proof (Q.le_min_l a b) as Hl. pose proof (Q.le_min_r a b) as Hr.
    assert (Hcase : Qmin a b == a \/ Qmin a b == b).
    { destruct (Q.min_spec a b) as [[_ H] | [_ H]]; [left | right]; exact H. }
    subst b. repeat split; lra.
Qed.

Lemma left_edge_is_clamped_witness :
  exists x,
    Position.left (calculatePosition Samples.caretView (Some Samples.panel) 500
                     (Samples.menuProps "" [])) = Some x
    /\ x + 0 + 280 + 12 <= 500.
Proof.
  destruct (@left_edge_is_clamped Samples.caretView (Some Samples.panel) 500
              (Samples.menuProps "" []) eq_refl eq_refl)
    as [x [Hx [_ [Hfit _]]]].
  exists x. split; [exact Hx | exact Hfit].
Defined.

(** Whatever the input, the position carries a [left] and no [right], even
    in right-to-left mode, and exactly one of [top] and [bottom]; a
    position above the anchor line ([isAbove = true]) is a [top] one. *)
Theorem position_anchors (view : View) (menuRef : option MenuElement)
    (innerWidth : Q) (props : Props) :
  let p := calculatePosition view menuRef innerWidth props in
  Position.left p <> None
  /\ Position.right p = None
  /\ (Position.top p = None <-> Position.bottom p <> None)
  /\ (Position.isAbove p = true -> Position.top p <> None).
Proof.
  cbv zeta. unfold calculatePosition.
  destruct (isActive props); cbn [negb].
  - destruct (gt _ _);
      cbn [Position.left Position.right Position.top Position.bottom
           Position.isAbove];
      repeat split; try discriminate; try reflexivity; intro H;
      try discriminate H; try (now contradiction H).
  - unfold defaultPosition.
    cbn [Position.left Position.right Position.top Position.bottom
         Position.isAbove].
    repeat split; try discriminate; intro H; try discriminate H;
      now contradiction H.
Qed.

(** When the active panel goes above the anchor, its [bottom] offset is a
    number only if the panel has an offset parent: for a panel that is
    not mounted or has none, the stand-in rectangle has no [bottom] and
    the offset is [NaN]. *)
Theorem bottom_offset_needs_offset_parent (view : View)
    (menuRef : option MenuElement) (innerWidth : Q) (props : Props) :
  isActive props = true ->
  Position.isAbove (calculatePosition view menuRef innerWidth props) = false ->
  let p := calculatePosition view menuRef innerWidth props in
  (offsetParentOf menuRef = None -> Position.bottom p = Some NaN)
  /\ (forall r, offsetParentOf menuRef = Some r ->
        Position.bottom p
        = Some (Finite (DOMRect.bottom r - Rect.top (caretPosition view)))).
Proof.
  intros Hactive Habove p. subst p. revert Habove.
  unfold calculatePosition. rewrite Hactive. cbn [negb].
  destruct (gt _ _); cbn [Position.isAbove Position.bottom];
    [intros _ | discriminate].
  unfold offsetParentOf, parentBox.
  destruct menuRef as [el |].
  - destruct (offsetParent el) as [r0 |].
    + split; [discriminate |]. intros r Hr. injection Hr as <-. reflexivity.
    + split; [reflexivity | discriminate].
  - split; [reflexivity | discriminate].
Qed.

Lemma bottom_offset_needs_offset_parent_witness :
  Position.bottom
    (calculatePosition Samples.caretView (Some MoreSamples.detachedPanel) 1000
       (Samples.menuProps "" []))
  = Some NaN.
Proof.
  apply (@bottom_offset_needs_offset_parent Samples.caretView
           (Some MoreSamples.detachedPanel) 1000 (Samples.menuProps "" [])
           eq_refl eq_refl).
  reflexivity.
Defined.

(** When both lookups succeed, the caret rectangle encloses the rectangle
    at either end of the selection, whichever comes first on screen, and
    it is well formed when they are. *)
Theorem caret_rectangle_encloses_both (view : View) (fromPos toPos : Rect.t) :
  coordsAtPos view (selectionFrom view) 1%Z = Some fromPos ->
  coordsAtPos view (selectionTo view) (-1)%Z = Some toPos ->
  let c := caretPosition view in
  encloses c fromPos /\ encloses c toPos
  /\ (Rect.top fromPos <= Rect.bottom fromPos -> Rect.top c <= Rect.bottom c)
  /\ (Rect.left fromPos <= Rect.right fromPos -> Rect.left c <= Rect.right c).
Proof.
  intros Hfrom Hto c. subst c. unfold caretPosition. rewrite Hfrom, Hto.
  unfold encloses. cbn [Rect.top Rect.bottom Rect.left Rect.right].
  pose proof (Q.le_min_l (Rect.top fromPos) (Rect.top toPos)).
  pose proof (Q.le_min_r (Rect.top fromPos) (Rect.top toPos)).
  pose proof (Q.le_min_l (Rect.left fromPos) (Rect.left toPos)).
  pose proof (Q.le_min_r (Rect.left fromPos) (Rect.left toPos)).
  pose proof (Q.le_max_l (Rect.bottom fromPos) (Rect.bottom toPos)).
  pose proof (Q.le_max_r (Rect.bottom fromPos) (Rect.bottom toPos)).
  pose proof (Q.le_max_l (Rect.right fromPos) (Rect.right toPos)).
  pose proof (Q.le_max_r (Rect.right fromPos) (Rect.right toPos)).
  repeat split; trivial; intro Hwf; lra.
Qed.

Lemma caret_rectangle_encloses_both_witness :
  Rect.top (caretPosition MoreSamples.rangeView) <= 400
  /\ 440 <= Rect.bottom (caretPosition MoreSamples.rangeView).
Proof.
  destruct (@caret_rectangle_encloses_both MoreSamples.rangeView _ _
              eq_refl eq_refl) as [[Htop _] [[_ [Hbottom _]] _]].
  split; [exact Htop | exact Hbottom].
Defined.

End PlacementProperties.

(* ================================================================== *)
(** * Further properties of the candidate list *)
(* ================================================================== *)

Module ListingProperties.
Import SuggestionsMenu Vocabulary Notions SeparatorProperties
  CandidateProperties.

(** ** The clean-up keeps every real entry *)

Lemma collapseAdjacent_keeps_real (l : list Item) (x : Item) :
  In x l -> isSeparator x = false -> In x (collapseAdjacent l).
Proof.
  induction l as [| a rest IH]; [trivial |].
  intros Hin Hreal. cbn [collapseAdjacent]. destruct rest as [| b rest'].
  - exact Hin.
  - destruct (isSeparator a && isSeparator b) eqn:Hab.
    + destruct Hin as [-> | Hin]; [| now apply IH].
      rewrite Hreal in Hab. discriminate Hab.
    + destruct Hin as [-> | Hin]; [now left | right; now apply IH].
Qed.

Lemma trimLeading_keeps_real (l : list Item) (x : Item) :
  In x l -> isSeparator x = false -> In x (trimLeading l).
Proof.
  destruct l as [| a rest]; [trivial |].
  intros Hin Hreal. cbn [trimLeading]. destruct (isSeparator a) eqn:Ha; [| exact Hin].
  destruct Hin as [-> | Hin]; [congruence | exact Hin].
Qed.

Lemma trimTrailing_keeps_real (l : list Item) (x : Item) :
  In x l -> isSeparator x = false -> In x (trimTrailing l).
Proof.
  induction l as [| a rest IH]; [trivial |].
  intros Hin Hreal. cbn [trimTrailing]. destruct rest as [| b rest'].
  - destruct Hin as [-> | []]. rewrite Hreal. now left.
  - destruct Hin as [-> | Hin]; [now left | right; now apply IH].
Qed.

Lemma filterExcessSeparators_keeps_real (l : list Item) (x : Item) :
  In x l -> isSeparator x = false -> In x (filterExcessSeparators l).
Proof.
  intros Hin Hreal. unfold filterExcessSeparators.
  apply trimTrailing_keeps_real; trivial.
  apply trimLeading_keeps_real; trivial.
  now apply collapseAdjacent_keeps_real.
Qed.

(** ** Real entries are the items the filter callback keeps *)

Lemma real_entry_iff_kept {R : JS.Runtime} (props : Props)
    (commands : Commands) (item : Item) :
  JS.SortPermutes R ->
  isSeparator item = false ->
  In item (filtered props commands)
  <-> In item (allItems props) /\ keep props commands item = true.
Proof.
  intros Hsort Hreal. split.
  - now apply filtered_incl.
  - intros [Hin Hkeep]. unfold filtered.
    apply filterExcessSeparators_keeps_real; trivial.
    apply (Permutation_in _ (Permutation_sym (Hsort _ _ _))).
    unfold filterStep. apply filter_In. now split.
Qed.

(** The callback on an entry that is not a separator, as one boolean. *)
Lemma keep_real {R : JS.Runtime} (props : Props) (commands : Commands)
    (item : Item) :
  isSeparator item = false ->
  keep props commands item
  = available commands item
    && uploadable props item
    && (if JS.truthy (Some (search props))
        then match filterable props with
             | Some false => true
             | _ => JS.includes (JS.toLowerCase (JS.orEmpty (title item)))
                      (JS.toLowerCase (search props))
                    || JS.includes (JS.toLowerCase (JS.orEmpty (keywords item)))
                         (JS.toLowerCase (search props))
             end
        else negb (defaultHidden item)).
Proof.
  intro Hreal. unfold keep, available, uploadable.
  unfold isSeparator in Hreal. rewrite Hreal.
  destruct (JS.truthy (name item)
            && negb (commands (JS.orEmpty (name item)))
            && negb (commands (createName (name item)))); [reflexivity |].
  destruct (negb (uploadFile props) && JS.strictEq (name item) "image");
    [reflexivity |].
  cbn [negb andb].
  destruct (JS.truthy (Some (search props))); cbn [negb]; [| reflexivity].
  destruct (filterable props) as [[|] |]; reflexivity.
Qed.

Lemma truthy_empty : JS.truthy (Some EmptyString) = false.
Proof. reflexivity. Qed.

Lemma containsSearch_iff {R : JS.Runtime} (s : string) (item : Item) :
  containsSearch s item
  <-> JS.includes (JS.toLowerCase (JS.orEmpty (title item))) (JS.toLowerCase s)
      || JS.includes (JS.toLowerCase (JS.orEmpty (keywords item)))
           (JS.toLowerCase s) = true.
Proof.
  unfold containsSearch. now rewrite orb_true_iff.
Qed.

Lemma available_bound {R : JS.Runtime} (commands : Commands) (item : Item) :
  available commands item = true ->
  JS.truthy (name item) = true ->
  commands (JS.orEmpty (name item)) = true
  \/ commands (createName (name item)) = true.
Proof.
  unfold available. intros Hav Hname. rewrite Hname in Hav. cbn [andb] in Hav.
  destruct (commands (JS.orEmpty (name item))); [now left |].
  destruct (commands (createName (name item))); [now right |].
  discriminate Hav.
Qed.

Lemma listed_available {R : JS.Runtime} (props : Props) (commands : Commands)
    (item : Item) :
  JS.SortPermutes R ->
  In item (filtered props commands) -> isSeparator item = false ->
  available commands item = true /\ uploadable props item = true.
Proof.
  intros Hsort Hin Hreal.
  apply (real_entry_iff_kept _ _ _ Hsort Hreal) in Hin.
  destruct Hin as [_ Hkeep]. rewrite (keep_real _ _ _ Hreal) in Hkeep.
  apply andb_true_iff in Hkeep. destruct Hkeep as [Hkeep _].
  now apply andb_true_iff in Hkeep.
Qed.

Lemma asciiRuntime_keeps_ties : SortKeepsTies JS.asciiRuntime.
Proof.
  intros A cmp l Hzero. apply insertionSort_nonnegative.
  intros a b. rewrite (Hzero a b). apply Qle_refl.
Qed.

(** A menu without upload capability never lists an item named "image",
    whatever is typed and whatever the filtering mode. *)
Theorem image_needs_upload {R : JS.Runtime} (props : Props)
    (commands : Commands) (item : Item) :
  JS.SortPermutes R ->
  uploadFile props = false ->
  In item (filtered props commands) ->
  name item <> Some "image"%string.
Proof.
  intros Hsort Hno Hin Hname.
  assert (Hreal : isSeparator item = false)
    by (unfold isSeparator; now rewrite Hname).
  destruct (listed_available _ _ _ Hsort Hin Hreal) as [_ Hup].
  unfold uploadable in Hup. rewrite Hno, Hname in Hup. discriminate Hup.
Qed.

Lemma image_needs_upload_witness :
  In Samples.heading1
    (@filtered JS.asciiRuntime
       (Samples.menuProps "" [Samples.heading1; Samples.image])
       Samples.allCommands)
  /\ name Samples.heading1 <> Some "image"%string.
Proof.
  assert (Hin : In Samples.heading1
                  (@filtered JS.asciiRuntime
                     (Samples.menuProps "" [Samples.heading1; Samples.image])
                     Samples.allCommands))
    by (left; reflexivity).
  split; [exact Hin |].
  exact (@image_needs_upload JS.asciiRuntime
           (Samples.menuProps "" [Samples.heading1; Samples.image])
           Samples.allCommands Samples.heading1 asciiRuntime_permutes
           eq_refl Hin).
Defined.

(** The menu never lists a named item whose command is bound neither
    under its name nor under its "create" name. *)
Theorem listed_items_are_bound {R : JS.Runtime} (props : Props)
    (commands : Commands) (item : Item) :
  JS.SortPermutes R ->
  In item (filtered props commands) ->
  isSeparator item = false ->
  JS.truthy (name item) = true ->
  commands (JS.orEmpty (name item)) = true
  \/ commands (createName (name item)) = true.
Proof.
  intros Hsort Hin Hreal Hname.
  destruct (listed_available _ _ _ Hsort Hin Hreal) as [Hav _].
  now apply available_bound.
Qed.

Lemma listed_items_are_bound_witness :
  MoreSamples.oneCommand "heading1"%string = true
  \/ MoreSamples.oneCommand
       (@createName JS.asciiRuntime (Some "heading1"%string)) = true.
Proof.
  apply (@listed_items_are_bound JS.asciiRuntime MoreSamples.emptySearchProps
           MoreSamples.oneCommand Samples.heading1 asciiRuntime_permutes).
  - left. reflexivity.
  - reflexivity.
  - reflexivity.
Defined.

(** In filterable mode with something typed, the real entries of the list
    are exactly the supplied items and embeds that are available, are not
    the image item of a menu without upload, and contain the search text
    in their title or keywords: no such item is dropped by the sorting or
    by the separator clean-up. *)
Theorem listed_iff_matching {R : JS.Runtime} (props : Props)
    (commands : Commands) (item : Item) :
  JS.SortPermutes R ->
  filterableMode props ->
  search props <> EmptyString ->
  isSeparator item = false ->
  In item (filtered props commands)
  <-> In item (allItems props)
      /\ available commands item = true
      /\ uploadable props item = true
      /\ containsSearch (search props) item.
Proof.
  intros Hsort Hmode Hsearch Hreal.
  rewrite (real_entry_iff_kept _ _ _ Hsort Hreal), (keep_real _ _ _ Hreal).
  rewrite (truthy_nonempty Hsearch), containsSearch_iff.
  unfold filterableMode in Hmode.
  destruct (filterable props) as [[|] |]; try (now contradiction Hmode);
    rewrite !andb_true_iff; tauto.
Qed.

Lemma listed_iff_matching_witness :
  In Samples.heading1
    (@filtered JS.asciiRuntime Samples.headProps Samples.allCommands).
Proof.
  apply (@listed_iff_matching JS.asciiRuntime Samples.headProps
           Samples.allCommands Samples.heading1 asciiRuntime_permutes).
  - discriminate.
  - discriminate.
  - reflexivity.
  - repeat split; try reflexivity.
    + left. reflexivity.
    + left. reflexivity.
Defined.





(** ** Order, case and provenance *)

Lemma compareFn_zero {R : JS.Runtime} (props : Props) (a b : Item) :
  JS.toLowerCase (search props) = EmptyString ->
  compareFn props a b == 0.
Proof.
  intro Hlower. unfold compareFn. rewrite Hlower, truthy_empty. reflexivity.
Qed.

(** With nothing typed, sorting changes nothing: the list is the kept
    items in the order in which they were supplied, separators tidied.
    The engine sort is taken to keep the order of elements its comparator
    calls equal, and the lower case of the empty string to be empty. *)
Theorem empty_search_keeps_order {R : JS.Runtime} (props : Props)
    (commands : Commands) :
  SortKeepsTies R ->
  JS.toLowerCase EmptyString = EmptyString ->
  search props = EmptyString ->
  filtered props commands
  = filterExcessSeparators (filterStep props commands).
Proof.
  intros Hties Hlower Hsearch. unfold filtered. f_equal.
  apply Hties. intros a b. apply compareFn_zero. now rewrite Hsearch.
Qed.

Lemma empty_search_keeps_order_witness :
  @filtered JS.asciiRuntime MoreSamples.emptySearchProps Samples.allCommands
  = [Samples.heading1; Samples.heading2].
Proof.
  rewrite (@empty_search_keeps_order JS.asciiRuntime
             MoreSamples.emptySearchProps Samples.allCommands
             asciiRuntime_keeps_ties eq_refl eq_refl).
  reflexivity.
Defined.

(** The list depends on the search text through its lower case only: two
    non-empty texts that differ in case alone give the same list. *)
Theorem search_ignores_case {R : JS.Runtime} (props : Props)
    (commands : Commands) (s1 s2 : string) :
  s1 <> EmptyString -> s2 <> EmptyString ->
  JS.toLowerCase s1 = JS.toLowerCase s2 ->
  filtered (withSearch props s1) commands
  = filtered (withSearch props s2) commands.
Proof.
  intros H1 H2 Hlower.
  unfold filtered, filterStep, compareFn, keep, allItems.
  cbn [search withSearch embeds items uploadFile filterable].
  rewrite (truthy_nonempty H1), (truthy_nonempty H2), Hlower.
  reflexivity.
Qed.

Lemma search_ignores_case_witness :
  @filtered JS.asciiRuntime (withSearch Samples.headProps "HEAD")
    Samples.allCommands
  = @filtered JS.asciiRuntime (withSearch Samples.headProps "head")
      Samples.allCommands.
Proof.
  apply (@search_ignores_case JS.asciiRuntime Samples.headProps
           Samples.allCommands "HEAD" "head").
  - discriminate.
  - discriminate.
  - reflexivity.
Defined.

Lemma embedItems_In (embeds : list Item) (item : Item) :
  In item (embedItems embeds) ->
  exists e, In e embeds /\ JS.truthy (title e) = true
            /\ notHidden e = true /\ item = asEmbed e.
Proof.
  induction embeds as [| e rest IH]; [contradiction |].
  cbn [embedItems].
  destruct (JS.truthy (title e) && notHidden e) eqn:He.
  - apply andb_true_iff in He. destruct He as [Ht Hv].
    intros [<- | Hin].
    + exists e. repeat split; trivial. now left.
    + destruct (IH Hin) as [e' [Hin' H]]. exists e'. split; [now right | exact H].
  - intro Hin. destruct (IH Hin) as [e' [Hin' H]].
    exists e'. split; [now right | exact H].
Qed.

Lemma items_in_allItems {R : JS.Runtime} (props : Props) (item : Item) :
  In item (items props) -> In item (allItems props).
Proof.
  intro Hin. unfold allItems.
  destruct (0 <? JS.length _)%Z; [apply in_or_app; now left | exact Hin].
Qed.

(** Nothing is invented: every entry of the list is one of the supplied
    items, or the separator, or one of the supplied embeds that has a
    title and is not hidden, renamed "embed" and otherwise unchanged. *)
Theorem listed_entries_come_from_props {R : JS.Runtime} (props : Props)
    (commands : Commands) (item : Item) :
  JS.SortPermutes R ->
  In item (filtered props commands) ->
  In item (items props)
  \/ item = separator
  \/ exists e, In e (suppliedEmbeds props)
               /\ JS.truthy (title e) = true
               /\ visible e <> Some false
               /\ item = asEmbed e.
Proof.
  intros Hsort Hin.
  destruct (filtered_incl _ _ _ Hsort Hin) as [Hall _].
  unfold allItems in Hall. fold (suppliedEmbeds props) in Hall.
  destruct (0 <? JS.length (embedItems (suppliedEmbeds props)))%Z;
    [| now left].
  apply in_app_or in Hall. destruct Hall as [Hitems | [<- | Hembed]].
  - now left.
  - right. now left.
  - right. right.
    destruct (embedItems_In _ _ Hembed) as [e [He [Ht [Hv ->]]]].
    exists e. repeat split; trivial.
    unfold notHidden in Hv. intro Hfalse. rewrite Hfalse in Hv. discriminate Hv.
Qed.

Lemma listed_entries_come_from_props_witness :
  In (asEmbed MoreSamples.videoDescriptor)
    (@filtered JS.asciiRuntime MoreSamples.embedProps Samples.allCommands)
  /\ (In (asEmbed MoreSamples.videoDescriptor) (items MoreSamples.embedProps)
      \/ asEmbed MoreSamples.videoDescriptor = separator
      \/ exists e, In e (suppliedEmbeds MoreSamples.embedProps)
                   /\ JS.truthy (title e) = true
                   /\ visible e <> Some false
                   /\ asEmbed MoreSamples.videoDescriptor = asEmbed e).
Proof.
  assert (Hin : In (asEmbed MoreSamples.videoDescriptor)
                  (@filtered JS.asciiRuntime MoreSamples.embedProps
                     Samples.allCommands))
    by (left; reflexivity).
  split; [exact Hin |].
  exact (@listed_entries_come_from_props JS.asciiRuntime MoreSamples.embedProps
           Samples.allCommands (asEmbed MoreSamples.videoDescriptor)
           asciiRuntime_permutes Hin).
Defined.

(** Without upload capability an attachment item is still listed when it
    matches, and choosing it does nothing at all: the file input it would
    click is not rendered. *)
Theorem attachment_listed_but_inert {R : JS.Runtime} (props : Props)
    (commands : Commands) (item : Item) :
  JS.SortPermutes R ->
  uploadFile props = false ->
  In item (items props) ->
  name item = Some "attachment"%string ->
  available commands item = true ->
  search props <> EmptyString ->
  containsSearch (search props) item ->
  In item (filtered props commands)
  /\ handleClickItem props commands item = (nil, Editor.Normal tt).
Proof.
  intros Hsort Hno Hin Hname Hav Hsearch Hmatch.
  assert (Hreal : isSeparator item = false)
    by (unfold isSeparator; now rewrite Hname).
  split.
  - apply (real_entry_iff_kept _ _ _ Hsort Hreal).
    split; [now apply items_in_allItems |].
    rewrite (keep_real _ _ _ Hreal), Hav, (truthy_nonempty Hsearch).
    unfold uploadable. rewrite Hname, Hno.
    apply containsSearch_iff in Hmatch. rewrite Hmatch.
    now destruct (filterable props) as [[|] |].
  - unfold handleClickItem, triggerFilePick. rewrite Hname, Hno. reflexivity.
Qed.

Lemma attachment_listed_but_inert_witness :
  In MoreSamples.attachment
    (@filtered JS.asciiRuntime MoreSamples.fileProps Samples.allCommands)
  /\ @handleClickItem JS.asciiRuntime MoreSamples.fileProps Samples.allCommands
       MoreSamples.attachment = (nil, Editor.Normal tt).
Proof.
  apply (@attachment_listed_but_inert JS.asciiRuntime MoreSamples.fileProps
           Samples.allCommands MoreSamples.attachment asciiRuntime_permutes);
    try reflexivity.
  - left. reflexivity.
  - discriminate.
  - left. reflexivity.
Defined.

End ListingProperties.

(* ================================================================== *)
(** * Further properties of the handlers of the suggestion menu *)
(* ================================================================== *)

Module InteractionProperties.
Import Editor SuggestionsMenu Vocabulary Notions SeparatorProperties
  CandidateProperties HandlerProperties ListingProperties.

(** ** Inserting a node *)

Lemma insertNode_completes {R : JS.Runtime} (commands : Commands)
    (item : Item) :
  completes (insertNode commands item)
  = (JS.truthy (name item) && commands (JS.orEmpty (name item)))
    || commands (createName (name item)).
Proof.
  unfold insertNode, completes.
  destruct (JS.truthy (name item)), (commands (JS.orEmpty (name item))),
    (commands (createName (name item))), (appendSpace item); reflexivity.
Qed.

(** [insertNode] returns exactly when a command is bound under the name
    of the item or under its "create" name.  Otherwise it throws after it
    has cleared the search and before it has run anything or closed the
    menu.  When it returns it has cleared the search, run one command with
    the attributes of the item, typed a space if the item asks for one,
    and closed the menu last. *)
Theorem insertNode_runs_one_bound_command {R : JS.Runtime}
    (commands : Commands) (item : Item) :
  completes (insertNode commands item)
  = (JS.truthy (name item) && commands (JS.orEmpty (name item)))
    || commands (createName (name item))
  /\ (completes (insertNode commands item) = false ->
        trace (insertNode commands item) = [ClearSearch])
  /\ (completes (insertNode commands item) = true ->
        exists n,
          (n = JS.orEmpty (name item) \/ n = createName (name item))
          /\ commands n = true
          /\ trace (insertNode commands item)
             = [ClearSearch; RunCommand n (attrs item)]
               ++ (if appendSpace item then [Dispatch [InsertText " "]] else [])
               ++ [Close false]).
Proof.
  split; [apply insertNode_completes |].
  unfold insertNode, completes.
  destruct (JS.truthy (name item)) eqn:Hname,
    (commands (JS.orEmpty (name item))) eqn:Hown,
    (commands (createName (name item))) eqn:Hcreate,
    (appendSpace item);
    cbn; split; intro H; try discriminate H; try reflexivity;
    solve [ eexists; split; [left; reflexivity |]; split;
              [exact Hown | reflexivity]
          | eexists; split; [right; reflexivity |]; split;
              [exact Hcreate | reflexivity] ].
Qed.

(** Choosing a listed item that has a name never throws: Enter or a click
    on any real candidate with a name completes. *)
Theorem listed_items_can_be_chosen {R : JS.Runtime} (props : Props)
    (commands : Commands) (item : Item) :
  JS.SortPermutes R ->
  In item (filtered props commands) ->
  isSeparator item = false ->
  JS.truthy (name item) = true ->
  completes (handleClickItem props commands item) = true.
Proof.
  intros Hsort Hin Hreal Hname.
  destruct (listed_available _ _ _ Hsort Hin Hreal) as [Hav _].
  pose proof (available_bound _ _ Hav Hname) as Hbound.
  unfold handleClickItem, triggerFilePick, triggerLinkInput.
  destruct (JS.strictEq (name item) "image");
    [now destruct (uploadFile props) |].
  destruct (JS.strictEq (name item) "attachment");
    [now destruct (uploadFile props) |].
  destruct (JS.strictEq (name item) "embed"); [reflexivity |].
  destruct (JS.strictEq (name item) "link");
    [now destruct (onLinkToolbarOpen props) |].
  rewrite insertNode_completes, Hname. cbn [andb].
  destruct Hbound as [-> | ->]; [reflexivity | apply orb_true_r].
Qed.

Lemma listed_items_can_be_chosen_witness :
  completes (@handleClickItem JS.asciiRuntime Samples.headProps
               Samples.allCommands Samples.heading1) = true.
Proof.
  apply (@listed_items_can_be_chosen JS.asciiRuntime Samples.headProps
           Samples.allCommands Samples.heading1 asciiRuntime_permutes).
  - left. reflexivity.
  - reflexivity.
  - reflexivity.
Defined.

(** ** The link input *)

(** The link input never changes the document on a value the pending
    item does not accept, whatever key is pressed and whatever is pasted,
    and it never throws on one.  An item without a matcher accepts
    nothing. *)
Theorem link_input_commits_only_accepted {R : JS.Runtime} (props : Props)
    (commands : Commands) (insertItem : option Item) (key value : string) :
  accepted insertItem value = false ->
  let typed := handleLinkInputKeydown props commands insertItem key value in
  let pasted := handleLinkInputPaste props commands insertItem value in
  existsb mutates (trace typed) = false /\ completes typed = true
  /\ existsb mutates (trace pasted) = false /\ completes pasted = true.
Proof.
  intro Hno. cbv zeta.
  unfold handleLinkInputKeydown, handleLinkInputPaste.
  destruct (isActive props); cbn [negb]; [| repeat split].
  destruct insertItem as [item |]; [| repeat split].
  cbn [accepted] in Hno. rewrite Hno. cbn [negb].
  destruct (String.eqb key "Enter"); [repeat split |].
  destruct (String.eqb key "Escape"); repeat split.
Qed.

Lemma link_input_commits_only_accepted_witness :
  existsb mutates
    (trace (@handleLinkInputKeydown JS.asciiRuntime (Samples.menuProps "" [])
              Samples.allCommands (Some Samples.heading1) "Enter"
              "https://a.example")) = false.
Proof.
  exact (proj1 (@link_input_commits_only_accepted JS.asciiRuntime
                  (Samples.menuProps "" []) Samples.allCommands
                  (Some Samples.heading1) "Enter" "https://a.example"
                  eq_refl)).
Defined.

(** Choosing an embed candidate opens the link input without touching the
    document, and what is then pasted is committed exactly when the
    matcher of that embed accepts it. *)
Theorem chosen_embed_validates_with_its_matcher {R : JS.Runtime}
    (props : Props) (commands : Commands) (s : State) (e : Item)
    (text : string) :
  isActive props = true ->
  commands "embed"%string = true
  \/ commands (createName (Some "embed"%string)) = true ->
  let chosen := handleClickItem props commands (asEmbed e) in
  let s' := commit s (trace chosen) in
  existsb mutates (trace chosen) = false
  /\ mode props s' = linkEditing
  /\ existsb mutates
       (trace (handleLinkInputPaste props commands (insertItem s') text))
     = matches e text.
Proof.
  intros Hactive Hbound. cbv zeta.
  assert (Hchosen : handleClickItem props commands (asEmbed e)
                    = ([SetInsertItem (Some (asEmbed e))], Normal tt))
    by reflexivity.
  rewrite Hchosen.
  cbn [trace fst commit fold_left setState insertItem existsb mutates orb].
  split; [reflexivity |]. split.
  - unfold mode. rewrite Hactive. reflexivity.
  - unfold handleLinkInputPaste. rewrite Hactive. cbn [negb].
    change (matches (asEmbed e) text) with (matches e text).
    destruct (matches e text); [| reflexivity].
    unfold insertNode.
    cbn [name attrs appendSpace embedNode JS.orEmpty].
    change (JS.truthy (Some "embed"%string)) with true. cbn iota.
    destruct (commands "embed"%string) eqn:Hembed; [reflexivity |].
    destruct Hbound as [Hb | Hb]; [discriminate Hb |].
    rewrite Hb. reflexivity.
Qed.

Lemma chosen_embed_validates_with_its_matcher_witness :
  existsb mutates
    (trace (@handleLinkInputPaste JS.asciiRuntime MoreSamples.embedProps
              Samples.allCommands
              (insertItem
                 (commit Samples.linkInputState
                    (trace (@handleClickItem JS.asciiRuntime
                              MoreSamples.embedProps Samples.allCommands
                              (asEmbed MoreSamples.videoDescriptor)))))
              "ftp://a.example"))
  = false.
Proof.
  destruct (@chosen_embed_validates_with_its_matcher JS.asciiRuntime
              MoreSamples.embedProps Samples.allCommands Samples.linkInputState
              MoreSamples.videoDescriptor "ftp://a.example" eq_refl
              (or_introl eq_refl)) as [_ [_ Hpaste]].
  exact Hpaste.
Defined.

End InteractionProperties.

(* ================================================================== *)
(** * Further properties of the key handler *)
(* ================================================================== *)

Module NavigationProperties.
Import Editor SuggestionsMenu Vocabulary Notions SeparatorProperties
  HandlerProperties.

Lemma index_in_range {A : Type} (l : list A) (i : Z) :
  (0 <= i < JS.length l)%Z -> exists x, JS.index l i = Some x.
Proof.
  unfold JS.index, JS.length. intros [Hpos Hlt].
  replace (i <? 0)%Z with false by (symmetry; apply Z.ltb_ge; lia).
  destruct (nth_error l (Z.to_nat i)) as [x |] eqn:Hx; [now exists x |].
  apply nth_error_None in Hx. lia.
Qed.

Lemma in_range_nonempty {A : Type} (l : list A) (i : Z) :
  (0 <= i < JS.length l)%Z -> l <> [].
Proof.
  intros [Hpos Hlt] ->. unfold JS.length in Hlt. cbn in Hlt. lia.
Qed.

Lemma realAt_in_range (l : list Item) (i : Z) :
  realAt l i -> (0 <= i < JS.length l)%Z.
Proof.
  intros [x [Hx _]]. destruct (index_Some _ _ Hx) as [H1 [H2 _]]. lia.
Qed.

Lemma not_separator_realAt (l : list Item) (i : Z) :
  (0 <= i < JS.length l)%Z ->
  namedSeparator (JS.index l i) = false -> realAt l i.
Proof.
  intros Hrange Hsep. destruct (@index_in_range Item l i Hrange) as [x Hx].
  exists x. split; [exact Hx |]. rewrite Hx in Hsep. exact Hsep.
Qed.

Lemma indexAfter_next {R : JS.Runtime} (props : Props) (commands : Commands)
    (l : list Item) (i : Z) (event : KeyboardEvent) :
  isActive props = true -> isNext event = true -> l <> [] ->
  indexAfter props commands l i event
  = Z.min (if namedSeparator (JS.index l (i + 1)) then i + 1 + 1 else i + 1)
          (JS.length l - 1).
Proof.
  intros Hactive Hnext Hne. unfold indexAfter.
  now rewrite (@next_trace R props commands l i event Hactive Hnext Hne).
Qed.

Lemma indexAfter_previous {R : JS.Runtime} (props : Props)
    (commands : Commands) (l : list Item) (i : Z) (event : KeyboardEvent) :
  isActive props = true -> isPrevious event = true -> l <> [] ->
  indexAfter props commands l i event
  = Z.max 0 (if namedSeparator (JS.index l (i - 1)) then i - 1 - 1 else i - 1).
Proof.
  intros Hactive Hprev Hne. unfold indexAfter.
  now rewrite (@previous_trace R props commands l i event Hactive Hprev Hne).
Qed.

(** A key that is neither Enter, nor Escape, nor one of the navigation
    chords goes through untouched: nothing is prevented, stopped, closed
    or selected. *)
Theorem other_keys_pass_through {R : JS.Runtime} (props : Props)
    (commands : Commands) (l : list Item) (i : Z) (event : KeyboardEvent) :
  key event <> "Enter"%string ->
  key event <> "Escape"%string ->
  isNext event = false ->
  isPrevious event = false ->
  handleKeyDown props commands l i event = ([], Normal tt).
Proof.
  intros Henter Hescape Hnext Hprev.
  unfold handleKeyDown. rewrite Hnext, Hprev.
  apply String.eqb_neq in Henter. apply String.eqb_neq in Hescape.
  rewrite Henter, Hescape.
  now destruct (isActive props).
Qed.

Lemma other_keys_pass_through_witness :
  @handleKeyDown JS.asciiRuntime Samples.headProps Samples.allCommands
    MoreSamples.threeEntries 0 MoreSamples.letter
  = ([], Normal tt).
Proof.
  apply (@other_keys_pass_through JS.asciiRuntime Samples.headProps
           Samples.allCommands MoreSamples.threeEntries 0 MoreSamples.letter);
    try reflexivity; discriminate.
Defined.

(** Enter with no entry at the selected index, as on an empty list, runs
    no command: it closes the menu with the request for a new line. *)
Theorem enter_without_candidate_asks_for_newline {R : JS.Runtime}
    (props : Props) (commands : Commands) (l : list Item) (i : Z)
    (event : KeyboardEvent) :
  isActive props = true ->
  key event = "Enter"%string ->
  JS.index l i = None ->
  handleKeyDown props commands l i event
  = ([PreventDefault; StopPropagation; Close true], Normal tt).
Proof.
  intros Hactive Hkey Hnone.
  unfold handleKeyDown, isNext, isPrevious. rewrite Hactive, Hnone.
  destruct event as [k s c]. cbn [key shiftKey ctrlKey] in *. subst k.
  eval_string_tests.
  repeat match goal with b : bool |- _ => destruct b end; reflexivity.
Qed.

Lemma enter_without_candidate_asks_for_newline_witness :
  @handleKeyDown JS.asciiRuntime Samples.headProps Samples.allCommands
    [] 0 MoreSamples.enter
  = ([PreventDefault; StopPropagation; Close true], Normal tt).
Proof.
  exact (@enter_without_candidate_asks_for_newline JS.asciiRuntime
           Samples.headProps Samples.allCommands [] 0 MoreSamples.enter
           eq_refl eq_refl eq_refl).
Defined.

(** From a valid index, either navigation chord leaves a valid index,
    whatever the list holds. *)
Theorem navigation_stays_in_range {R : JS.Runtime} (props : Props)
    (commands : Commands) (l : list Item) (i : Z) (event : KeyboardEvent) :
  isActive props = true ->
  (0 <= i < JS.length l)%Z ->
  isNext event = true \/ isPrevious event = true ->
  (0 <= indexAfter props commands l i event < JS.length l)%Z.
Proof.
  intros Hactive Hrange Hchord.
  pose proof (@in_range_nonempty Item l i Hrange) as Hne.
  destruct Hchord as [Hnext | Hprev].
  - rewrite (@indexAfter_next R props commands l i event Hactive Hnext Hne).
    destruct (namedSeparator _); lia.
  - rewrite (@indexAfter_previous R props commands l i event Hactive Hprev Hne).
    destruct (namedSeparator _); lia.
Qed.

Lemma navigation_stays_in_range_witness :
  (0 <= @indexAfter JS.asciiRuntime Samples.headProps Samples.allCommands
          MoreSamples.threeEntries 2 Samples.arrowDown < 3)%Z.
Proof.
  apply (@navigation_stays_in_range JS.asciiRuntime Samples.headProps
           Samples.allCommands MoreSamples.threeEntries 2 Samples.arrowDown
           eq_refl).
  - unfold JS.length. cbn. lia.
  - left. reflexivity.
Defined.

(** On a list with no separator at either end and no two in a row, a
    navigation chord pressed on a real entry lands on a real entry: the
    selection never rests on a separator. *)
Theorem navigation_stays_on_real_entries {R : JS.Runtime} (props : Props)
    (commands : Commands) (l : list Item) (i : Z) (event : KeyboardEvent) :
  isActive props = true ->
  tidy l ->
  realAt l i ->
  isNext event = true \/ isPrevious event = true ->
  realAt l (indexAfter props commands l i event).
Proof.
  intros Hactive [Hstart [Hend Hadj]] Hreal Hchord.
  pose proof (@realAt_in_range l i Hreal) as Hrange.
  pose proof (@in_range_nonempty Item l i Hrange) as Hne.
  destruct Hchord as [Hnext | Hprev].
  - rewrite (@indexAfter_next R props commands l i event Hactive Hnext Hne).
    destruct (namedSeparator (JS.index l (i + 1))) eqn:Hsep.
    + pose proof (shape_next _ _ Hadj Hend Hsep) as Hlanding.
      pose proof (@realAt_in_range l _ Hlanding).
      replace (Z.min (i + 1 + 1) (JS.length l - 1)) with (i + 1 + 1)%Z by lia.
      exact Hlanding.
    + destruct (Z_lt_le_dec (i + 1) (JS.length l)) as [Hlt | Hge].
      * replace (Z.min (i + 1) (JS.length l - 1)) with (i + 1)%Z by lia.
        apply not_separator_realAt; [lia | exact Hsep].
      * replace (Z.min (i + 1) (JS.length l - 1)) with i by lia.
        exact Hreal.
  - rewrite (@indexAfter_previous R props commands l i event Hactive Hprev Hne).
    destruct (namedSeparator (JS.index l (i - 1))) eqn:Hsep.
    + pose proof (shape_previous _ _ Hadj Hstart Hsep) as Hlanding.
      pose proof (@realAt_in_range l _ Hlanding).
      replace (Z.max 0 (i - 1 - 1)) with (i - 1 - 1)%Z by lia.
      exact Hlanding.
    + destruct (Z_lt_le_dec 0 i) as [Hpos | Hzero].
      * replace (Z.max 0 (i - 1)) with (i - 1)%Z by lia.
        apply not_separator_realAt; [lia | exact Hsep].
      * replace (Z.max 0 (i - 1)) with i by lia.
        exact Hreal.
Qed.

Lemma navigation_stays_on_real_entries_witness :
  realAt MoreSamples.threeEntries
    (@indexAfter JS.asciiRuntime Samples.headProps Samples.allCommands
       MoreSamples.threeEntries 0 Samples.arrowDown).
Proof.
  apply (@navigation_stays_on_real_entries JS.asciiRuntime Samples.headProps
           Samples.allCommands MoreSamples.threeEntries 0 Samples.arrowDown
           eq_refl).
  - repeat split.
  - exists Samples.heading1. split; reflexivity.
  - left. reflexivity.
Defined.

(** On such a list the two chords undo each other: "next" then "previous"
    returns to a real entry that is not the last, and "previous" then
    "next" returns to a real entry that is not the first. *)
Theorem next_and_previous_undo_each_other {R : JS.Runtime} (props : Props)
    (commands : Commands) (l : list Item) (i : Z)
    (next previous : KeyboardEvent) :
  isActive props = true ->
  tidy l ->
  realAt l i ->
  isNext next = true ->
  isPrevious previous = true ->
  ((i + 1 < JS.length l)%Z ->
     indexAfter props commands l (indexAfter props commands l i next) previous
     = i)
  /\ ((0 < i)%Z ->
        indexAfter props commands l (indexAfter props commands l i previous)
          next
        = i).
Proof.
  intros Hactive [Hstart [Hend Hadj]] Hreal Hnext Hprev.
  pose proof (@realAt_in_range l i Hreal) as Hrange.
  pose proof (@in_range_nonempty Item l i Hrange) as Hne.
  pose proof (@realAt_not_separator l i Hreal) as Hi.
  split; intro Hroom.
  - rewrite (@indexAfter_next R props commands l i next Hactive Hnext Hne).
    destruct (namedSeparator (JS.index l (i + 1))) eqn:Hsep.
    + pose proof (@realAt_in_range l _ (shape_next _ _ Hadj Hend Hsep)).
      replace (Z.min (i + 1 + 1) (JS.length l - 1)) with (i + 1 + 1)%Z by lia.
      rewrite (@indexAfter_previous R props commands l (i + 1 + 1)%Z previous Hactive Hprev Hne).
      replace (i + 1 + 1 - 1)%Z with (i + 1)%Z by lia.
      rewrite Hsep. lia.
    + replace (Z.min (i + 1) (JS.length l - 1)) with (i + 1)%Z by lia.
      rewrite (@indexAfter_previous R props commands l (i + 1)%Z previous Hactive Hprev Hne).
      replace (i + 1 - 1)%Z with i by lia.
      rewrite Hi. lia.
  - rewrite (@indexAfter_previous R props commands l i previous Hactive Hprev Hne).
    destruct (namedSeparator (JS.index l (i - 1))) eqn:Hsep.
    + pose proof (@realAt_in_range l _ (shape_previous _ _ Hadj Hstart Hsep)).
      replace (Z.max 0 (i - 1 - 1)) with (i - 1 - 1)%Z by lia.
      rewrite (@indexAfter_next R props commands l (i - 1 - 1)%Z next Hactive Hnext Hne).
      replace (i - 1 - 1 + 1)%Z with (i - 1)%Z by lia.
      rewrite Hsep. lia.
    + replace (Z.max 0 (i - 1)) with (i - 1)%Z by lia.
      rewrite (@indexAfter_next R props commands l (i - 1)%Z next Hactive Hnext Hne).
      replace (i - 1 + 1)%Z with i by lia.
      rewrite Hi. lia.
Qed.

Lemma next_and_previous_undo_each_other_witness :
  @indexAfter JS.asciiRuntime Samples.headProps Samples.allCommands
    MoreSamples.threeEntries
    (@indexAfter JS.asciiRuntime Samples.headProps Samples.allCommands
       MoreSamples.threeEntries 0 Samples.arrowDown)
    MoreSamples.shiftTab
  = 0%Z.
Proof.
  assert (Htidy : tidy MoreSamples.threeEntries) by (repeat split).
  assert (Hreal : realAt MoreSamples.threeEntries 0)
    by (exists Samples.heading1; split; reflexivity).
  destruct (@next_and_previous_undo_each_other JS.asciiRuntime
              Samples.headProps Samples.allCommands MoreSamples.threeEntries 0
              Samples.arrowDown MoreSamples.shiftTab eq_refl Htidy Hreal
              eq_refl eq_refl) as [Hback _].
  apply Hback. vm_compute. reflexivity.
Defined.

End NavigationProperties.

(* ================================================================== *)
(** * Properties of the body of the selection toolbar *)
(* ================================================================== *)

Module ToolbarRenderProperties.
Import Editor ToolbarRender Notions SeparatorProperties.

Lemma length_zero_iff {A : Type} (l : list A) :
  (JS.length l =? 0)%Z = true <-> l = [].
Proof.
  unfold JS.length. rewrite Z.eqb_eq. destruct l; cbn [List.length]; split;
    intro H; try reflexivity; try discriminate H; lia.
Qed.

(** The toolbar never shows an item with a name unless a command is bound
    under that very name: unlike the suggestion menu, it does not look
    for a "create" name.  Every item shown comes from the menu chosen for
    the selection. *)
Theorem toolbar_offers_only_bound_commands (menus : Menus)
    (commands : SuggestionsMenu.Commands) (o : Observed)
    (rtl isTemplate : bool) (item : Item) :
  In item (toolbarItems menus commands o rtl isTemplate) ->
  SuggestionsMenu.isSeparator item = false ->
  JS.truthy (SuggestionsMenu.name item) = true ->
  commands (JS.orEmpty (SuggestionsMenu.name item)) = true
  /\ In item (chosenItems menus o rtl isTemplate).
Proof.
  intros Hin Hreal Hname. unfold toolbarItems in Hin.
  apply filterExcessSeparators_incl, filter_In in Hin.
  destruct Hin as [Hchosen Hoffered]. split; [| exact Hchosen].
  unfold offered in Hoffered. unfold SuggestionsMenu.isSeparator in Hreal.
  rewrite Hreal, Hname in Hoffered. cbn [andb] in Hoffered.
  now destruct (commands (JS.orEmpty (SuggestionsMenu.name item))).
Qed.

Lemma toolbar_offers_only_bound_commands_witness :
  MoreSamples.strongOnly "strong"%string = true.
Proof.
  apply (@toolbar_offers_only_bound_commands MoreSamples.menus
           MoreSamples.strongOnly MoreSamples.linkObserved false false
           MoreSamples.bold).
  - left. reflexivity.
  - reflexivity.
  - reflexivity.
Defined.

(** What the toolbar renders.  Nothing in a code block or when the menu
    chosen for the selection keeps no item; the link editor, 336 wide,
    exactly when outside a code block an item is kept, a link mark is
    active and its range is found; the menu otherwise.  So a link is not
    editable where no toolbar command is bound. *)
Theorem toolbar_render_outcomes (menus : Menus)
    (commands : SuggestionsMenu.Commands) (o : Observed)
    (rtl isTemplate : bool) :
  let items := toolbarItems menus commands o rtl isTemplate in
  let shown := render menus commands o rtl isTemplate in
  (shown = Nothing <-> isCodeSelection o = true \/ items = [])
  /\ (forall r w,
        shown = LinkEditor r w <->
        isCodeSelection o = false /\ items <> [] /\ link o = true
        /\ range o = Some r /\ w = 336%Z)
  /\ (forall shownItems,
        shown = ToolbarMenu shownItems <->
        isCodeSelection o = false /\ items <> []
        /\ (link o = false \/ range o = None) /\ shownItems = items).
Proof.
  cbv zeta. unfold render.
  destruct (isCodeSelection o).
  { split; [| split].
    - split; auto.
    - intros r w. split; [discriminate | intros [H _]; discriminate H].
    - intros l. split; [discriminate | intros [H _]; discriminate H]. }
  destruct (JS.length (toolbarItems menus commands o rtl isTemplate) =? 0)%Z
    eqn:Hlen.
  { apply length_zero_iff in Hlen. rewrite Hlen. split; [| split].
    - split; auto.
    - intros r w. split; [discriminate | intros [_ [H _]]; now contradiction H].
    - intros l. split; [discriminate | intros [_ [H _]]; now contradiction H]. }
  assert (Hne : toolbarItems menus commands o rtl isTemplate <> []).
  { intro H. apply length_zero_iff in H. congruence. }
  destruct (link o); [destruct (range o) as [r0 |] |].
  - split; [| split].
    + split; [discriminate | intros [H | H]; [discriminate H | contradiction]].
    + intros r w. split.
      * intro H. injection H as <- <-. auto 6.
      * intros [_ [_ [_ [H ->]]]]. injection H as <-. reflexivity.
    + intros l. split; [discriminate |].
      intros [_ [_ [[H | H] _]]]; discriminate H.
  - split; [| split].
    + split; [discriminate | intros [H | H]; [discriminate H | contradiction]].
    + intros r w. split; [discriminate |].
      intros [_ [_ [_ [H _]]]]. discriminate H.
    + intros l. split.
      * intro H. injection H as <-. auto 6.
      * intros [_ [_ [_ ->]]]. reflexivity.
  - split; [| split].
    + split; [discriminate | intros [H | H]; [discriminate H | contradiction]].
    + intros r w. split; [discriminate |].
      intros [_ [_ [H _]]]. discriminate H.
    + intros l. split.
      * intro H. injection H as <-. auto 6.
      * intros [_ [_ [_ ->]]]. reflexivity.
Qed.

(** ** Open and close callbacks *)

Lemma last_cons {A : Type} (a : A) (rest : list A) (d : A) :
  last (a :: rest) d = last rest a.
Proof.
  revert a d. induction rest as [| b rest IH]; intros a d; [reflexivity |].
  change (last (a :: b :: rest) d) with (last (b :: rest) d).
  rewrite (IH b d), (IH b a). reflexivity.
Qed.

Lemma notify_cases (previous : option bool) (isActive : bool) :
  notify previous isActive
  = match wasActive previous, isActive with
    | true, false => [onClose]
    | false, true => [onOpen]
    | _, _ => []
    end.
Proof.
  unfold notify, wasActive. destruct previous as [[|] |], isActive; reflexivity.
Qed.

Lemma notifications_from (previous : option bool) (renders : list bool) :
  alternates (if wasActive previous then onClose else onOpen)
    (notifications previous renders) = true
  /\ (opens (notifications previous renders)
      + (if wasActive previous then 1 else 0)
      = closes (notifications previous renders)
        + (if last renders (wasActive previous) then 1 else 0))%nat.
Proof.
  revert previous. induction renders as [| a rest IH]; intro previous.
  - cbn. split; [now destruct (wasActive previous) | lia].
  - cbn [notifications]. rewrite notify_cases.
    specialize (IH (Some a)). cbn [wasActive] in IH.
    destruct IH as [IHalt IHcount].
    rewrite last_cons.
    unfold opens, closes in *.
    destruct (wasActive previous), a; cbn [app alternates filter isOpen negb
      List.length]; split; trivial; lia.
Qed.

(** Over any run of renders the toolbar fires [onOpen] and [onClose] in
    turns, [onOpen] first, and has fired one more [onOpen] than [onClose]
    exactly when it is active at the last render: a callback is fired on
    each change of [isActive] and on nothing else.  [usePrevious] is taken
    to give the value at the render before. *)
Theorem open_and_close_alternate (renders : list bool) :
  alternates onOpen (notifications None renders) = true
  /\ opens (notifications None renders)
     = (closes (notifications None renders)
        + (if lastActive renders then 1 else 0))%nat.
Proof.
  destruct (notifications_from None renders) as [Halt Hcount].
  cbn [wasActive] in Halt, Hcount. unfold lastActive.
  split; [exact Halt | lia].
Qed.

(** ** Creating a link *)

Lemma prefix_append (p s : string) : String.prefix p (p ++ s) = true.
Proof.
  induction p as [| a p IH]; cbn; [now destruct s |].
  destruct (Ascii.ascii_dec a a); [exact IH | congruence].
Qed.

(** On a selection that is not collapsed, creating a link is selecting
    the placeholder link over the selection and then starting the
    creation with the same placeholder: one transaction over exactly
    [from, to], whose [href] starts with the prefix that marks a link as
    being created and is the one handed to [createAndInsertLink]. *)
Theorem create_link_places_the_placeholder (creatingUrlPrefix : string)
    (sel : SelectionToolbar.Selection) (title : string) :
  SelectionToolbar.from sel <> SelectionToolbar.to sel ->
  let href := (creatingUrlPrefix ++ title ++ "…")%string in
  SelectionToolbar.handleOnCreateLink creatingUrlPrefix true sel title
  = SelectionToolbar.handleOnSelectLink href (SelectionToolbar.from sel)
      (SelectionToolbar.to sel)
    ++ [CreateAndInsertLink title href]
  /\ String.prefix creatingUrlPrefix href = true.
Proof.
  intros Hne href. split; [| apply prefix_append].
  unfold SelectionToolbar.handleOnCreateLink. cbn [negb].
  apply Z.eqb_neq in Hne. rewrite Hne. reflexivity.
Qed.

Lemma create_link_places_the_placeholder_witness :
  SelectionToolbar.handleOnCreateLink "creating#" true
    MoreSamples.rangeSelection "Roadmap"
  = [ Dispatch [ RemoveMark 4 9 "link";
                 AddMark 4 9 "link"
                   [("href"%string, "creating#Roadmap…"%string)] ];
      CreateAndInsertLink "Roadmap" "creating#Roadmap…" ].
Proof.
  assert (Hne : SelectionToolbar.from MoreSamples.rangeSelection
                <> SelectionToolbar.to MoreSamples.rangeSelection)
    by discriminate.
  rewrite (proj1 (@create_link_places_the_placeholder "creating#"
                    MoreSamples.rangeSelection "Roadmap" Hne)).
  reflexivity.
Defined.

End ToolbarRenderProperties.

(* ================================================================== *)
(** * Further properties of the extension presets *)
(* ================================================================== *)

Module CommentsProperties.
Import Extensions.

(** [withComments] gives a list without repetition exactly when its
    argument has none and holds neither [Mention] nor [Comment]; applied
    twice it always repeats them.  On the rich preset it gives a list
    without repetition. *)
Theorem withComments_unique_iff (nodes : Nodes) :
  (NoDup (withComments nodes)
   <-> NoDup nodes /\ ~ In Mention nodes /\ ~ In Comment nodes)
  /\ ~ NoDup (withComments (withComments nodes))
  /\ NoDup (withComments richExtensions).
Proof.
  assert (Hiff : forall l, NoDup (withComments l)
                           <-> NoDup l /\ ~ In Mention l /\ ~ In Comment l).
  { intro l. unfold withComments. rewrite !NoDup_cons_iff. cbn [In].
    split.
    - intros [Hm [Hc Hl]]. repeat split; trivial.
      intro H. apply Hm. now right.
    - intros [Hl [Hm Hc]]. repeat split; trivial.
      intros [H | H]; [discriminate H | now apply Hm]. }
  split; [apply Hiff |]. split.
  - rewrite Hiff. intros [_ [Hm _]]. apply Hm. left. reflexivity.
  - assert (H : nodup eq_dec (withComments richExtensions)
                = withComments richExtensions)
      by (vm_compute; reflexivity).
    rewrite <- H. apply NoDup_nodup.
Qed.

End CommentsProperties.

(* ================================================================== *)
(** * Properties of the right sidebar *)
(* ================================================================== *)

Module SidebarProperties.
Import Sidebar.

(** With the minimum no greater than the maximum, the dragged width lies
    between them, and is the distance from the pointer to the right edge
    of the window whenever that distance does. *)
Theorem dragged_width_is_clamped (innerWidth pageX maxWidth minWidth : Q) :
  minWidth <= maxWidth ->
  let width := handleDrag innerWidth pageX maxWidth minWidth in
  minWidth <= width /\ width <= maxWidth
  /\ (minWidth <= innerWidth - pageX <= maxWidth ->
      width == innerWidth - pageX).
Proof.
  intros Hbounds width. subst width. unfold handleDrag.
  set (d := innerWidth - pageX).
  destruct (Q.min_spec d maxWidth) as [[Hlt Hmin] | [Hle Hmin]];
    destruct (Q.max_spec (Qmin d maxWidth) minWidth) as [[Hlt' Hmax] | [Hle' Hmax]];
    rewrite Hmax; repeat split; try intros [Hlo Hhi]; lra.
Qed.

Lemma dragged_width_is_clamped_witness :
  handleDrag 1200 100 600 (minWidth 200) <= 600.
Proof.
  assert (Hbounds : minWidth 200 <= 600) by (vm_compute; discriminate).
  exact (proj1 (proj2 (@dragged_width_is_clamped 1200 100 600 (minWidth 200)
                         Hbounds))).
Defined.

(** The minimum wins: the dragged width is never below it, even when the
    theme gives a maximum below the minimum. *)
Lemma dragged_width_at_least_minimum (innerWidth pageX maxWidth minWidth : Q) :
  minWidth <= handleDrag innerWidth pageX maxWidth minWidth.
Proof.
  unfold handleDrag. apply Q.le_max_r.
Qed.

Lemma sidebar_effect_on_empty (d : Deps) :
  effect d [] = held {| live := Some d; document := [] |}.
Proof.
  unfold effect, held. cbn [live]. now destruct (isResizing d).
Qed.

Lemma sidebar_cleanup_own (d : Deps) :
  cleanup d (held {| live := Some d; document := [] |}) = [].
Proof.
  unfold cleanup, held, removeEventListener, sameListener. cbn [live].
  destruct (isResizing d); [| reflexivity].
  cbn [filter type handler eventTypeEqb andb negb].
  rewrite ?Nat.eqb_refl. cbn [filter type handler eventTypeEqb andb negb].
  rewrite ?Nat.eqb_refl. reflexivity.
Qed.

Lemma sidebar_step_keeps_held (w : World) (e : Event) :
  document w = held w -> document (step w e) = held (step w e).
Proof.
  intro Hw. unfold step.
  destruct e as [d | d |]; destruct (live w) as [d0 |] eqn:Hlive; trivial.
  - cbn [document]. rewrite Hw. unfold held at 1. rewrite Hlive.
    apply sidebar_effect_on_empty.
  - destruct (depsEqb d d0); [exact Hw |].
    cbn [document]. rewrite Hw. unfold held at 1. rewrite Hlive.
    fold (held {| live := Some d0; document := [] |}).
    rewrite sidebar_cleanup_own. apply sidebar_effect_on_empty.
  - cbn [document]. rewrite Hw. unfold held at 1. rewrite Hlive.
    fold (held {| live := Some d0; document := [] |}).
    rewrite sidebar_cleanup_own. reflexivity.
Qed.

(** After any sequence of mounts, renders and unmounts, the document
    holds the mouse-move and mouse-up listeners of the sidebar exactly
    while it is mounted and resizing, once each, and none otherwise: a
    finished or abandoned drag leaves no listener behind. *)
Theorem sidebar_listens_only_while_resizing (events : list Event) :
  document (run events) = held (run events).
Proof.
  unfold run.
  assert (H : forall w, document w = held w ->
                        document (fold_left step events w)
                        = held (fold_left step events w)).
  { induction events as [| e events IH]; intros w Hw; [exact Hw |].
    cbn [fold_left]. apply IH. now apply sidebar_step_keeps_held. }
  apply H. reflexivity.
Qed.

End SidebarProperties.
